(** * Zero@Campus backend ([backend/main.py]): operational state tracker and
    catalog scope resolver.

    The development embeds the request handlers of [backend/main.py] as
    functions over an explicit world (process globals, the incident objects
    they reference, the file system and the wall clock), and proves or
    refutes the properties the specification states about them. *)

From Stdlib Require Import ZArith QArith String Ascii List Lia.
From Stdlib Require Import DecimalString DecimalZ.
From Stdlib Require SpecFloat.
From stdpp Require Import gmap strings list fin_maps.

#[local] Set Warnings "-register-all".
#[local] Open Scope string_scope.
#[local] Open Scope Z_scope.

(** ** Python values, exceptions and the handler monad *)

Module Py.

(** Values exchanged with [json.load] and returned by the handlers.
    Python's [None] is [JNull].  Floats only occur as literals that are
    passed through unchanged, so they are kept as the decimal they
    denote. *)
Inductive json : Type :=
| JNull
| JBool (b : bool)
| JInt (n : Z)
| JFloat (q : Q)
| JStr (s : string)
| JList (l : list json)
| JDict (d : gmap string json).

(** The exceptions the handlers can raise. [HTTPException] is the only
    one raised on purpose; the others come from subscripting and from
    the operating system. *)
Inductive exn : Type :=
| HTTPException (status_code : Z) (detail : string)
| KeyError (key : string)
| TypeError
| AttributeError
| IndexError
| OSError (strerror : string).

Inductive res (A : Type) : Type :=
| Ok (a : A)
| Raise (e : exn).
Arguments Ok {A} a.
Arguments Raise {A} e.

#[global] Instance res_ret : MRet res := fun A a => Ok a.
#[global] Instance res_bind : MBind res := fun A B k m =>
  match m with
  | Ok a => k a
  | Raise e => Raise e
  end.

Definition NotFound {A} (r : res A) : Prop :=
  exists detail, r = Raise (HTTPException 404 detail).

Definition IntegrityError {A} (r : res A) : Prop :=
  exists detail, r = Raise (HTTPException 500 detail).

(** [bool(v)]: truth value testing. *)
Definition truthy (v : json) : bool :=
  match v with
  | JNull => false
  | JBool b => b
  | JInt n => negb (Z.eqb n 0)
  | JFloat q => negb (Qeq_bool q 0)
  | JStr s => negb (String.eqb s "")
  | JList l => match l with [] => false | _ => true end
  | JDict d => negb (bool_decide (d = ∅))
  end.

(** [v[k]] for a string key [k]. *)
Definition getitem (v : json) (k : string) : res json :=
  match v with
  | JDict d => match d !! k with
               | Some x => Ok x
               | None => Raise (KeyError k)
               end
  | _ => Raise TypeError
  end.

(** [v.get(k, default)]. Only dictionaries have the method. *)
Definition get (v : json) (k : string) (dflt : json) : res json :=
  match v with
  | JDict d => Ok (default dflt (d !! k))
  | _ => Raise AttributeError
  end.

End Py.

Import Py.

(** ** The world the handlers run in *)

(** The dictionaries of [state["workflows"]] and [state["incidents"]]. *)
Record Workflow : Type := mkWorkflow {
  wf_name : string;
  wf_status : string;
  wf_last_run : string;
  wf_next_run : string
}.

Record Incident : Type := mkIncident {
  inc_ts : string;
  inc_type : string;
  inc_action : string;
  inc_result : string;
  inc_severity : string;
  inc_duration_ms : Z
}.

(** [state["last_backup"]]: under ["ts"] the string
    [datetime.now().isoformat()] gave when the backup was made. *)
Record LastBackup : Type := mkLastBackup {
  lb_ts : option string;
  lb_file : option string;
  lb_size : N
}.

(** Incident dictionaries are objects: the log holds references to them,
    and a handler that updates one through a reference changes the object
    every holder sees. *)
Definition loc : Type := nat.

(** The module-level [state] dictionary. *)
Record State : Type := mkState {
  system_status : string;
  last_incident : option string;
  workflows : list Workflow;
  incidents : list loc;
  last_backup : LastBackup
}.

(** Files as the handlers observe them: whether a path exists, its size,
    and what reading it back gives. *)
Inductive zentry : Type :=
| EJson (v : json)
| EText (s : string)
| ECopy (src : string).

Inductive body : Type :=
| BJson (v : json)
| BOpaque
| BTarGz (members : list string)
| BZip (entries : list (string * zentry)).

Inductive node : Type :=
| Dir (size : N)
| File (size : N) (content : body).

(** Process globals, heap, file system and clock. [clock] is the wall
    clock, in microseconds since the epoch; [utc_offset] is the local
    zone's offset in seconds. *)
Record World : Type := mkWorld {
  state : State;
  heap : gmap loc Incident;
  catalog_cache : json;
  fs : gmap string node;
  clock : Z;
  utc_offset : Z
}.

Definition set_state (s : State) (w : World) : World :=
  mkWorld s (heap w) (catalog_cache w) (fs w) (clock w) (utc_offset w).
Definition set_heap (h : gmap loc Incident) (w : World) : World :=
  mkWorld (state w) h (catalog_cache w) (fs w) (clock w) (utc_offset w).
Definition set_catalog_cache (c : json) (w : World) : World :=
  mkWorld (state w) (heap w) c (fs w) (clock w) (utc_offset w).
Definition set_fs (f : gmap string node) (w : World) : World :=
  mkWorld (state w) (heap w) (catalog_cache w) f (clock w) (utc_offset w).
Definition set_clock (t : Z) (w : World) : World :=
  mkWorld (state w) (heap w) (catalog_cache w) (fs w) t (utc_offset w).

Definition set_system_status (v : string) (s : State) : State :=
  mkState v (last_incident s) (workflows s) (incidents s) (last_backup s).
Definition set_last_incident (v : option string) (s : State) : State :=
  mkState (system_status s) v (workflows s) (incidents s) (last_backup s).
Definition set_workflows (v : list Workflow) (s : State) : State :=
  mkState (system_status s) (last_incident s) v (incidents s) (last_backup s).
Definition set_incidents (v : list loc) (s : State) : State :=
  mkState (system_status s) (last_incident s) (workflows s) v (last_backup s).
Definition set_last_backup (v : LastBackup) (s : State) : State :=
  mkState (system_status s) (last_incident s) (workflows s) (incidents s) v.

(** A handler: reads and updates the world, returns or raises. What it
    changed before raising stays changed. *)
Definition M (A : Type) : Type := World -> res A * World.

#[global] Instance M_ret : MRet M := fun A a w => (Ok a, w).
#[global] Instance M_bind : MBind M := fun A B k m w =>
  match m w with
  | (Ok a, w') => k a w'
  | (Raise e, w') => (Raise e, w')
  end.

Definition lift {A} (r : res A) : M A := fun w => (r, w).
Definition raise {A} (e : exn) : M A := fun w => (Raise e, w).
Definition gets {A} (f : World -> A) : M A := fun w => (Ok (f w), w).
Definition modify (f : World -> World) : M unit := fun w => (Ok tt, f w).
Definition modify_state (f : State -> State) : M unit :=
  modify (fun w => set_state (f (state w)) w).

(** The module's initial globals. *)
Definition initial_state : State := {|
  system_status := "OK";
  last_incident := None;
  workflows := [
    mkWorkflow "Incident Agent" "Running" "2m ago" "in 3m";
    mkWorkflow "Evidence Agent" "Running" "5m ago" "in 10m";
    mkWorkflow "Backup Agent" "Idle" "1h ago" "in 5h";
    mkWorkflow "Forecast Refresh" "Running" "10m ago" "in 50m" ];
  incidents := [];
  last_backup := mkLastBackup None None 0
|}.

Definition initial_world (files : gmap string node) (now tz : Z) : World := {|
  state := initial_state;
  heap := ∅;
  catalog_cache := JNull;
  fs := files;
  clock := now;
  utc_offset := tz
|}.

(** ** Catalog and scope resolution *)

Module Catalog.

Definition CATALOG_PATH : string := "runtime/catalog_ieU_seed.json".

(** [json.load] of an opened file: [None] stands for any exception
    ([open] on a directory, text that is not JSON). *)
Definition json_load (n : node) : option json :=
  match n with
  | File _ (BJson v) => Some v
  | _ => None
  end.

Definition load_catalog : M json := fun w =>
  if truthy (catalog_cache w) then (Ok (catalog_cache w), w)
  else match fs w !! CATALOG_PATH with
       | Some n =>
           match json_load n with
           | Some v => (Ok v, set_catalog_cache v w)
           | None => (Ok JNull, w)
           end
       | None => (Ok JNull, w)
       end.

(** [iter(v)]: the elements a [for] loop or generator visits. Iterating
    a dictionary visits its keys, a string its characters. *)
Definition py_iter (v : json) : res (list json) :=
  match v with
  | JList l => Ok l
  | JDict d => Ok ((fun kv => JStr kv.1) <$> map_to_list d)
  | JStr s => Ok ((fun c => JStr (String c "")) <$> list_ascii_of_string s)
  | _ => Raise TypeError
  end.

(** [x == id] for the query parameter [id : Optional[str]]. *)
Definition eq_id (x : json) (id : option string) : bool :=
  match x, id with
  | JStr s, Some t => String.eqb s t
  | JNull, None => true
  | _, _ => false
  end.

(** [next((f for f in it if f["id"] == id), None)] *)
Fixpoint next_with_id (it : list json) (id : option string) : res json :=
  match it with
  | [] => Ok JNull
  | f :: it' =>
      x ← getitem f "id";
      if eq_id x id then Ok f else next_with_id it' id
  end.

(** The loop of the department branch: [dept] when it ends. *)
Fixpoint search_departments (faculties : list json) (id : option string)
  : res json :=
  match faculties with
  | [] => Ok JNull
  | f :: rest =>
      ds ← get f "departments" (JList []);
      it ← py_iter ds;
      d ← next_with_id it id;
      if truthy d then Ok d else search_departments rest id
  end.

Definition fallback_kpis : gmap string json :=
  {[ "co2e_t" := JInt 18450; "energy_mwh" := JInt 14200;
     "water_m3" := JInt 45000; "intensity" := JFloat (12 # 10);
     "progress" := JInt 42 ]}.

Definition fallback_scope : json :=
  JDict {[ "scope" := JStr "campus"; "kpis" := JDict fallback_kpis;
           "levers" := JList [] ]}.

Definition scope_of_data (data : json) (scope : string) (id : option string)
  : res json :=
  if String.eqb scope "campus" then
    campus ← getitem data "campus";
    kpis ← getitem campus "kpis";
    campus' ← getitem data "campus";
    levers ← get campus' "levers" (JList []);
    Ok (JDict {[ "scope" := JStr "campus"; "name" := JStr "Campus Overview";
                 "kpis" := kpis; "levers" := levers ]})
  else if String.eqb scope "faculty" then
    fl ← getitem data "faculties";
    it ← py_iter fl;
    faculty ← next_with_id it id;
    if negb (truthy faculty) then
      Raise (HTTPException 404 "Faculty not found")
    else
      name ← getitem faculty "name";
      kpis ← getitem faculty "kpis";
      levers ← get faculty "levers" (JList []);
      Ok (JDict {[ "scope" := JStr "faculty"; "name" := name;
                   "kpis" := kpis; "levers" := levers ]})
  else if String.eqb scope "department" then
    fl ← getitem data "faculties";
    it ← py_iter fl;
    dept ← search_departments it id;
    if negb (truthy dept) then
      Raise (HTTPException 404 "Department not found")
    else
      name ← getitem dept "name";
      kpis ← getitem dept "kpis";
      levers ← get dept "levers" (JList []);
      Ok (JDict {[ "scope" := JStr "department"; "name" := name;
                   "kpis" := kpis; "levers" := levers ]})
  else Ok (JDict ∅).

Definition get_scope_kpis (scope : string) (id : option string) : M json :=
  data ← load_catalog;
  if negb (truthy data) then mret fallback_scope
  else lift (scope_of_data data scope id).

End Catalog.

(** ** Catalog files that follow the documented schema *)

Module Schema.

(** Modelled from the spec: the catalog file
    [runtime/catalog_ieU_seed.json] is not part of the source; section 3
    of the specification gives its shape. A node carries [id], [name],
    [kpis] and, optionally, [levers]; a faculty optionally owns an
    ordered sequence of departments. KPI values and levers are passed
    through unchanged. *)
Record Department : Type := mkDepartment {
  d_id : string;
  d_name : string;
  d_kpis : gmap string json;
  d_levers : option (list json)
}.

Record Faculty : Type := mkFaculty {
  f_id : string;
  f_name : string;
  f_kpis : gmap string json;
  f_levers : option (list json);
  f_departments : option (list Department)
}.

Record Campus : Type := mkCampus {
  c_name : string;
  c_kpis : gmap string json;
  c_levers : option (list json)
}.

Record Catalog : Type := mkCatalog {
  campus : Campus;
  faculties : list Faculty
}.

Definition with_opt (k : string) (o : option json) (m : gmap string json)
  : gmap string json :=
  match o with
  | Some v => <[k := v]> m
  | None => m
  end.

Definition enc_department (d : Department) : json :=
  JDict (with_opt "levers" (JList <$> d_levers d)
           {[ "id" := JStr (d_id d); "name" := JStr (d_name d);
              "kpis" := JDict (d_kpis d) ]}).

Definition enc_faculty (f : Faculty) : json :=
  JDict (with_opt "departments"
           ((fun ds => JList (enc_department <$> ds)) <$> f_departments f)
           (with_opt "levers" (JList <$> f_levers f)
              {[ "id" := JStr (f_id f); "name" := JStr (f_name f);
                 "kpis" := JDict (f_kpis f) ]})).

Definition enc_campus (c : Campus) : json :=
  JDict (with_opt "levers" (JList <$> c_levers c)
           {[ "name" := JStr (c_name c); "kpis" := JDict (c_kpis c) ]}).

Definition enc_catalog (c : Catalog) : json :=
  JDict {[ "campus" := enc_campus (campus c);
           "faculties" := JList (enc_faculty <$> faculties c) ]}.

Definition departments_of (f : Faculty) : list Department :=
  default [] (f_departments f).

(** The departments of the whole catalog, faculty by faculty in catalog
    order and, within a faculty, in the order the faculty lists them. *)
Definition all_departments (c : Catalog) : list Department :=
  concat (departments_of <$> faculties c).

Definition has_id {A} (id_of : A -> string) (X : string) (a : A) : bool :=
  String.eqb (id_of a) X.

(** The first department with id [X] in that order, as the specification
    words the lookup. *)
Definition first_department (X : string) (c : Catalog) : option Department :=
  List.find (has_id d_id X) (all_departments c).

Definition first_faculty (X : string) (c : Catalog) : option Faculty :=
  List.find (has_id f_id X) (faculties c).

Definition enc_opt {A} (enc : A -> json) (o : option A) : json :=
  match o with Some a => enc a | None => JNull end.

Definition node_response (scope name : string) (kpis : gmap string json)
  (levers : option (list json)) : json :=
  JDict {[ "scope" := JStr scope; "name" := JStr name;
           "kpis" := JDict kpis; "levers" := JList (default [] levers) ]}.

End Schema.


(** ** Clock readings and their renderings *)

Module Clock.

(** [str(n)] for an integer. *)
Definition str (n : Z) : string := NilZero.string_of_int (Z.to_int n).

Fixpoint zeros (k : nat) : string :=
  match k with
  | O => ""
  | S k' => "0" ++ zeros k'
  end.

(** [f"{n:0{width}d}"] for a non-negative [n]. *)
Definition zfill (width : nat) (n : Z) : string :=
  let s := str n in zeros (width - String.length s) ++ s.

(** [int(time.time())] *)
Definition int_time (w : World) : Z := Z.quot (clock w) 1000000.

(** Python floats are IEEE 754 binary64 numbers, rounded to nearest,
    ties to even. *)
Definition float : Type := SpecFloat.spec_float.
Definition prec : Z := 53.
Definition emax : Z := 1024.

(** [float(n)] *)
Definition float_of_Z (n : Z) : float :=
  SpecFloat.binary_normalize prec emax n 0 false.

Definition fsub (x y : float) : float := SpecFloat.SFsub prec emax x y.
Definition fmul (x y : float) : float := SpecFloat.SFmul prec emax x y.
Definition fdiv (x y : float) : float := SpecFloat.SFdiv prec emax x y.
Definition flt (x y : float) : bool := SpecFloat.SFltb x y.

(** [int(x)]: [x] rounded toward zero. Python raises on an infinity or
    a NaN; the handlers convert differences of time stamps, which are
    finite, and the model answers 0 for the rest. *)
Definition int_of_float (x : float) : Z :=
  match x with
  | SpecFloat.S754_finite s m e =>
      let n := if 0 <=? e then Z.pos m * 2 ^ e
               else Z.quot (Z.pos m) (2 ^ (- e)) in
      if s then - n else n
  | _ => 0
  end.

(** [time.time()]: the clock reading in seconds, as a float. *)
Definition time_time (w : World) : float :=
  fdiv (float_of_Z (clock w)) (float_of_Z 1000000).

(** [int((now - start) * 1000)] *)
Definition float_ms (start now : float) : Z :=
  int_of_float (fmul (fsub now start) (float_of_Z 1000)).

#[global] Arguments float_of_Z : simpl never.
#[global] Arguments fsub : simpl never.
#[global] Arguments fmul : simpl never.
#[global] Arguments fdiv : simpl never.
#[global] Arguments flt : simpl never.
#[global] Arguments int_of_float : simpl never.
#[global] Arguments time_time : simpl never.
#[global] Arguments float_ms : simpl never.

(** Seconds of local wall-clock time since the epoch. *)
Definition local_seconds (w : World) : Z := clock w / 1000000 + utc_offset w.

(** [time.strftime("%H:%M:%S")] *)
Definition strftime_HMS (w : World) : string :=
  let s := local_seconds w in
  zfill 2 ((s / 3600) mod 24) ++ ":" ++ zfill 2 ((s / 60) mod 60) ++ ":"
    ++ zfill 2 (s mod 60).

(** Civil date of a day count since 1970-01-01 (proleptic Gregorian). *)
Definition civil_from_days (days : Z) : Z * Z * Z :=
  let z := days + 719468 in
  let era := z / 146097 in
  let doe := z - era * 146097 in
  let yoe := (doe - doe / 1460 + doe / 36524 - doe / 146096) / 365 in
  let doy := doe - (365 * yoe + yoe / 4 - yoe / 100) in
  let mp := (5 * doy + 2) / 153 in
  let d := doy - (153 * mp + 2) / 5 + 1 in
  let m := if mp <? 10 then mp + 3 else mp - 9 in
  let y := yoe + era * 400 + (if m <=? 2 then 1 else 0) in
  (y, m, d).

(** [datetime.isoformat()] of the naive local datetime at clock reading
    [t]; the fraction is printed only when it is not zero. *)
Definition isoformat (tz t : Z) : string :=
  let s := t / 1000000 + tz in
  let us := t mod 1000000 in
  let '(y, m, d) := civil_from_days (s / 86400) in
  zfill 4 y ++ "-" ++ zfill 2 m ++ "-" ++ zfill 2 d ++ "T"
    ++ zfill 2 ((s / 3600) mod 24) ++ ":" ++ zfill 2 ((s / 60) mod 60)
    ++ ":" ++ zfill 2 (s mod 60)
    ++ (if us =? 0 then "" else "." ++ zfill 6 us).

(** [datetime.datetime.now().isoformat()] *)
Definition now_iso (w : World) : string := isoformat (utc_offset w) (clock w).

(** [time.sleep(secs)]: when the caller resumes the wall clock has moved
    by [secs] seconds and [overrun] microseconds: how much later than
    asked the caller was woken, and whatever the clock was set by
    meanwhile, which can make it negative. *)
Definition sleep (secs overrun : Z) : M unit :=
  modify (fun w => set_clock (clock w + secs * 1000000 + overrun) w).

End Clock.

(** ** Health state machine and incident log *)

Module Ops.
Import Clock.

(** [state["workflows"][0]["status"] = v]; an empty list raises
    [IndexError]. *)
Definition set_workflow0_status (v : string) : M unit := fun w =>
  match workflows (state w) with
  | [] => (Raise IndexError, w)
  | wf :: rest =>
      let wf' := mkWorkflow (wf_name wf) v (wf_last_run wf) (wf_next_run wf) in
      (Ok tt, set_state (set_workflows (wf' :: rest) (state w)) w)
  end.

(** A dictionary display creates a new object. *)
Definition alloc (inc : Incident) : M loc := fun w =>
  let l := fresh (dom (heap w)) in
  (Ok l, set_heap (<[l := inc]> (heap w)) w).

(** [state["incidents"].insert(0, incident)] *)
Definition insert_front (l : loc) : M unit :=
  modify_state (fun s => set_incidents (l :: incidents s) s).

(** [if len(state["incidents"]) > 5: state["incidents"].pop()] *)
Definition pop_over_5 {A} (log : list A) : list A :=
  if 5 <? Z.of_nat (length log) then removelast log else log.

Definition pop_if_over_5 : M unit :=
  modify_state (fun s => set_incidents (pop_over_5 (incidents s)) s).

Definition simulate_fail : M json :=
  modify_state (set_system_status "DEGRADED");;
  modify_state (set_last_incident (Some "API Latency Spike detected"));;
  set_workflow0_status "Retrying...";;
  mret (JDict {[ "status" := JStr "System set to DEGRADED" ]}).

(** The handler answers [{"status": .., "incident": incident}]; the
    model returns the status text and the reference. *)
Definition self_heal (overrun1 overrun2 : Z) : M (string * loc) :=
  start ← gets time_time;
  sleep 1 overrun1;;
  modify_state (set_system_status "HEALING");;
  sleep 1 overrun2;;
  modify_state (set_system_status "OK");;
  now ← gets time_time;
  let duration := float_ms start now in
  ts ← gets strftime_HMS;
  incident ← alloc {|
    inc_ts := ts;
    inc_type := "Latency Spike";
    inc_action := "Auto-Scale + Cache Flush";
    inc_result := "Resolved";
    inc_severity := "HIGH";
    inc_duration_ms := duration |};
  insert_front incident;;
  pop_if_over_5;;
  modify_state (set_last_incident (Some ("Resolved: " ++ "Latency Spike")));;
  set_workflow0_status "Running";;
  mret ("System Healed", incident).

Definition real_fail : M (string * loc) :=
  modify_state (set_system_status "DEGRADED");;
  ts ← gets strftime_HMS;
  incident ← alloc {|
    inc_ts := ts;
    inc_type := "api_failure_demo";
    inc_action := "restart_api";
    inc_result := "Pending";
    inc_severity := "HIGH";
    inc_duration_ms := 0 |};
  insert_front incident;;
  pop_if_over_5;;
  modify_state (set_last_incident (Some "Critical Failure: API Unresponsive"));;
  mret ("System DEGRADED", incident).

Definition is_pending_demo (inc : Incident) : bool :=
  String.eqb (inc_type inc) "api_failure_demo"
  && String.eqb (inc_result inc) "Pending".

(** The scan of [real_heal]: the first reference in the log whose object
    is a pending demo failure. Every reference in the log points to an
    object, so the lookup cannot miss; a miss is skipped. *)
Fixpoint find_pending (h : gmap loc Incident) (log : list loc) : option loc :=
  match log with
  | [] => None
  | l :: log' =>
      match h !! l with
      | Some inc => if is_pending_demo inc then Some l else find_pending h log'
      | None => find_pending h log'
      end
  end.

(** [inc["result"] = "Recovered"; inc["duration_ms"] = 12800] *)
Definition recover (inc : Incident) : Incident :=
  mkIncident (inc_ts inc) (inc_type inc) (inc_action inc) "Recovered"
    (inc_severity inc) 12800.

Definition real_heal (overrun1 overrun2 : Z) : M (string * loc) :=
  sleep 2 overrun1;;
  modify_state (set_system_status "HEALING");;
  sleep 1 overrun2;;
  modify_state (set_system_status "OK");;
  found ← gets (fun w => find_pending (heap w) (incidents (state w)));
  incident ← match found with
             | Some l =>
                 modify (fun w => set_heap (alter recover l (heap w)) w);;
                 mret l
             | None =>
                 ts ← gets strftime_HMS;
                 l ← alloc {|
                   inc_ts := ts;
                   inc_type := "api_restart_manual";
                   inc_action := "restart_api";
                   inc_result := "Recovered";
                   inc_severity := "HIGH";
                   inc_duration_ms := 12800 |};
                 insert_front l;;
                 mret l
             end;
  modify_state (set_last_incident (Some "System Recovered"));;
  set_workflow0_status "Running";;
  mret ("System Restored", incident).

(** The log as a reader sees it: the objects behind the references,
    most recent first. *)
Definition incident_log (w : World) : list Incident :=
  omap (fun l => heap w !! l) (incidents (state w)).

Definition live (h : gmap loc Incident) (log : list loc) : Prop :=
  Forall (fun l => is_Some (h !! l)) log.

(** References in the log are distinct and point to objects. *)
Definition heap_ok (w : World) : Prop :=
  NoDup (incidents (state w)) /\
  forall l, l ∈ incidents (state w) -> is_Some (heap w !! l).

(** The three records the handlers synthesize. *)
Definition demo_failure (ts : string) : Incident :=
  mkIncident ts "api_failure_demo" "restart_api" "Pending" "HIGH" 0.

Definition manual_restart (ts : string) : Incident :=
  mkIncident ts "api_restart_manual" "restart_api" "Recovered" "HIGH" 12800.

Definition latency_resolved (ts : string) (duration : Z) : Incident :=
  mkIncident ts "Latency Spike" "Auto-Scale + Cache Flush" "Resolved" "HIGH"
    duration.

(** Whole milliseconds between the clock readings of two worlds. *)
Definition elapsed_ms (before after : World) : Z :=
  Z.quot (clock after - clock before) 1000.

(** The clock after the two sleeps of a heal handler. *)
Definition after_sleeps (secs overrun1 overrun2 : Z) (w : World) : Z :=
  clock w + secs * 1000000 + overrun1 + 1 * 1000000 + overrun2.

Definition retrying (wf : Workflow) : Workflow :=
  mkWorkflow (wf_name wf) "Retrying..." (wf_last_run wf) (wf_next_run wf).

Definition running (wf : Workflow) : Workflow :=
  mkWorkflow (wf_name wf) "Running" (wf_last_run wf) (wf_next_run wf).

End Ops.

(** ** Backups *)

Module Backup.
Import Clock.

Definition BACKUP_DIR : string := "runtime/backups".

Fixpoint ends_with_slash (s : string) : bool :=
  match s with
  | "" => false
  | String c "" => Ascii.eqb c "/"
  | String _ s' => ends_with_slash s'
  end.

(** [os.path.join(a, b)] on POSIX. *)
Definition path_join (a b : string) : string :=
  match b with
  | String "/" _ => b
  | _ => if String.eqb a "" || ends_with_slash a then a ++ b
         else a ++ "/" ++ b
  end.

(** [os.path.exists] and [os.path.getsize]. Paths are looked up as
    written, relative to the working directory of the process. *)
Definition exists_path (p : string) (w : World) : bool :=
  bool_decide (is_Some (fs w !! p)).

Definition node_size (n : node) : N :=
  match n with
  | Dir sz => sz
  | File sz _ => sz
  end.

Definition getsize (p : string) : M N := fun w =>
  match fs w !! p with
  | Some n => (Ok (node_size n), w)
  | None =>
      (Raise (OSError ("[Errno 2] No such file or directory: '" ++ p ++ "'")), w)
  end.

(** Opening [path] for writing inside [dir]: the directory must exist
    and [path] must not be one; the file is created empty. *)
Definition open_for_write (dir path : string) : M unit := fun w =>
  match fs w !! dir with
  | Some (Dir _) =>
      match fs w !! path with
      | Some (Dir _) =>
          (Raise (OSError ("[Errno 21] Is a directory: '" ++ path ++ "'")), w)
      | _ => (Ok tt, set_fs (<[path := File 0 BOpaque]> (fs w)) w)
      end
  | Some (File _ _) =>
      (Raise (OSError ("[Errno 20] Not a directory: '" ++ path ++ "'")), w)
  | None =>
      (Raise (OSError ("[Errno 2] No such file or directory: '" ++ path ++ "'")), w)
  end.

(** Closing an archive writes it out: [size] is the length the archive
    library produced for [content]. *)
Definition close_archive (path : string) (size : N) (content : body) : M unit :=
  modify (fun w => set_fs (<[path := File size content]> (fs w)) w).

(** [f"backup_{int(time.time())}.tar.gz"] *)
Definition backup_name (w : World) : string :=
  "backup_" ++ str (int_time w) ++ ".tar.gz".

Definition optional_member (p : string) (w : World) : list string :=
  if exists_path p w then [p] else [].

Definition opt_str (o : option string) : json :=
  match o with Some s => JStr s | None => JNull end.

Definition run_backup (archive_size : N) : M json :=
  ts ← gets now_iso;
  filename ← gets backup_name;
  let filepath := path_join BACKUP_DIR filename in
  open_for_write BACKUP_DIR filepath;;
  m1 ← gets (optional_member "zero-campus.html");
  m2 ← gets (optional_member "backend");
  close_archive filepath archive_size (BTarGz (m1 ++ m2));;
  size ← getsize filepath;
  modify_state (set_last_backup (mkLastBackup (Some ts) (Some filename) size));;
  mret (JDict {[ "ok" := JBool true; "file" := JStr filename;
                 "size_bytes" := JInt (Z.of_N size); "ts" := JStr ts ]}).

(** [bool(lb["file"])] and [bool(lb["ts"])]: [None] and the empty string
    are false. *)
Definition file_truthy (o : option string) : bool :=
  match o with
  | Some s => negb (String.eqb s "")
  | None => false
  end.

(** [datetime.fromisoformat(lb["ts"]).timestamp()] reads the stored string
    as a local time and asks the zone rules in force which instant it
    names; where local times repeat, as when clocks are set back for
    winter, that need not be the instant the string was made at.
    [ts_epoch] is the float the call gives. *)
Definition get_backup_status (ts_epoch : float) : M json :=
  lb ← gets (fun w => last_backup (state w));
  now ← gets time_time;
  let age := if file_truthy (lb_ts lb)
             then int_of_float (fsub now ts_epoch) else 0 in
  mret (JDict {[ "last_ok_ts" := opt_str (lb_ts lb);
                 "last_file" := opt_str (lb_file lb);
                 "size_bytes" := JInt (Z.of_N (lb_size lb));
                 "age_seconds" := JInt age ]}).

Definition verify_backup : M json :=
  lb ← gets (fun w => last_backup (state w));
  if negb (file_truthy (lb_file lb)) then
    raise (HTTPException 404 "No backup found")
  else
    let filepath := path_join BACKUP_DIR (default "" (lb_file lb)) in
    present ← gets (exists_path filepath);
    if (present : bool) then
      sz ← getsize filepath;
      if (0 <? sz)%N then mret (JDict {[ "ok" := JBool true ]})
      else raise (HTTPException 500 "Backup file missing or empty")
    else raise (HTTPException 500 "Backup file missing or empty").

End Backup.

(** ** Status projections and evidence packs *)

Module Evidence.
Import Clock Ops Backup.

Definition EVIDENCE_DIR : string := "runtime/evidence".

(** What the environment decides during one [build_evidence_pack]:
    the measured handler latency and the two [random.randint] draws,
    whether the orchestrator probe answered, the length of the archive
    written, and the instant the zone rules give for the time stamp of
    the last backup. *)
Record Env : Type := mkEnv {
  measured_ms : Z;
  latency_draw : Z;
  n8n_up : bool;
  pending_draw : Z;
  zip_size : N;
  backup_epoch : float
}.

Definition workflow_json (wf : Workflow) : json :=
  JDict {[ "name" := JStr (wf_name wf); "status" := JStr (wf_status wf);
           "last_run" := JStr (wf_last_run wf);
           "next_run" := JStr (wf_next_run wf) ]}.

Definition incident_json (inc : Incident) : json :=
  JDict {[ "ts" := JStr (inc_ts inc); "type" := JStr (inc_type inc);
           "action" := JStr (inc_action inc);
           "result" := JStr (inc_result inc);
           "severity" := JStr (inc_severity inc);
           "duration_ms" := JInt (inc_duration_ms inc) ]}.

Definition get_health : M json :=
  t ← gets int_time;
  status ← gets (fun w => system_status (state w));
  mret (JDict {[ "ui" := JStr "OK"; "api" := JStr "OK"; "db" := JStr "OK";
                 "n8n" := JStr "OK"; "ts" := JInt t;
                 "status" := JStr status ]}).

Definition backup_text (now ts_epoch : float) (lb : LastBackup) : string :=
  if file_truthy (lb_ts lb) then
    let diff := fsub now ts_epoch in
    if flt diff (float_of_Z 60) then "Just now"
    else if flt diff (float_of_Z 3600)
    then str (int_of_float (fdiv diff (float_of_Z 60))) ++ "m ago"
    else "Today"
  else "Today 04:00 AM".

Definition get_system_status (e : Env) : M json :=
  s ← gets state;
  let agents_status :=
    if negb (String.eqb (system_status s) "OK") then "Degraded" else "Running" in
  let latency := measured_ms e + latency_draw e in
  now ← gets time_time;
  updated_at ← gets now_iso;
  mret (JDict {[ "system_state" := JStr (system_status s);
                 "brain" := JStr "Online";
                 "agents" := JStr (agents_status ++ " (4/4)");
                 "backup" := JStr (backup_text now (backup_epoch e) (last_backup s));
                 "cache" := JStr "Ready";
                 "last_incident" := opt_str (last_incident s);
                 "latency_ms" := JInt latency;
                 "updated_at" := JStr updated_at;
                 "backend_version" := JStr "v0.1.0" ]}).

Definition get_orchestrator_status (e : Env) : M json :=
  wfs ← gets (fun w => JList (workflow_json <$> workflows (state w)));
  if n8n_up e then
    mret (JDict {[ "ok" := JBool true; "workflows" := wfs;
                   "queue" := JDict {[ "pending" := JInt 0 ]};
                   "webhooks_last_ping" := JStr "Live" ]})
  else
    mret (JDict {[ "ok" := JBool false; "workflows" := wfs;
                   "queue" := JDict {[ "pending" := JInt (pending_draw e) ]};
                   "webhooks_last_ping" := JStr "Offline (Seed)" ]}).

Definition get_incidents : M json :=
  log ← gets incident_log;
  mret (JDict {[ "incidents" := JList (incident_json <$> log) ]}).

Definition nl : string := String (ascii_of_nat 10) "".

Definition summary_md (ts : string) (s : State) : string :=
  "# Zero@Campus Evidence Pack" ++ nl ++
  "Generated: " ++ ts ++ nl ++
  "Version: v0.1.0" ++ nl ++
  nl ++
  "## System Health" ++ nl ++
  "- State: " ++ system_status s ++ nl ++
  "- Agents: 4/4 Running" ++ nl ++
  "- Latency: ~20ms" ++ nl ++
  nl ++
  "## Backup Status" ++ nl ++
  "- Last Backup: " ++
    (if file_truthy (lb_file (last_backup s))
     then default "" (lb_file (last_backup s)) else "None") ++ nl ++
  "- Size: " ++ str (Z.of_N (lb_size (last_backup s))) ++ " bytes" ++ nl ++
  nl ++
  "## Recent Incidents" ++ nl ++
  str (Z.of_nat (length (incidents s))) ++ " incidents recorded." ++ nl.

(** [try: ... except Exception as e: raise HTTPException(500, str(e))].
    Inside the block only the operating system raises. *)
Definition except_as_500 {A} (m : M A) : M A := fun w =>
  match m w with
  | (Raise (OSError msg), w') => (Raise (HTTPException 500 msg), w')
  | r => r
  end.

(** [f"evidence_{int(time.time())}"] *)
Definition pack_name (w : World) : string := "evidence_" ++ str (int_time w).

(** [os.path.join(EVIDENCE_DIR, f"{pack_id}.zip")] *)
Definition zip_path_of (pack_id : string) : string :=
  path_join EVIDENCE_DIR (pack_id ++ ".zip").

Definition backup_entry (w : World) : list (string * zentry) :=
  let file := lb_file (last_backup (state w)) in
  if file_truthy file then
    let backup_path := path_join BACKUP_DIR (default "" file) in
    if exists_path backup_path w
    then [("backups/" ++ default "" file, ECopy backup_path)]
    else []
  else [].

Definition build_evidence_pack (e : Env) : M json :=
  ts ← gets now_iso;
  pack_id ← gets pack_name;
  let zip_path := zip_path_of pack_id in
  system_status ← get_system_status e;
  n8n_status ← get_orchestrator_status e;
  backup_status ← get_backup_status (backup_epoch e);
  incidents ← get_incidents;
  health ← get_health;
  let evidence_data := JDict {[
    "timestamp" := JStr ts;
    "backend_version" := JStr "v0.1.0";
    "system_status" := system_status;
    "n8n_status" := n8n_status;
    "backup_status" := backup_status;
    "incidents" := incidents;
    "health" := health ]} in
  summary ← gets (fun w => summary_md ts (state w));
  except_as_500 (
    open_for_write EVIDENCE_DIR zip_path;;
    extra ← gets backup_entry;
    close_archive zip_path (zip_size e)
      (BZip ([("evidence.json", EJson evidence_data);
              ("summary.md", EText summary)] ++ extra)));;
  size ← getsize zip_path;
  mret (JDict {[ "ok" := JBool true; "pack_id" := JStr pack_id;
                 "zip_path" := JStr zip_path;
                 "size_bytes" := JInt (Z.of_N size);
                 "created_at" := JStr ts ]}).

(** The handler streams the file; the model returns what it reads. *)
Definition download_evidence (pack_id : string) : M node := fun w =>
  let zip_path := zip_path_of pack_id in
  match fs w !! zip_path with
  | Some n => (Ok n, w)
  | None => (Raise (HTTPException 404 "Evidence pack not found"), w)
  end.

End Evidence.

(** ** Runs of the process *)

Module Process.
Import Catalog Ops Backup Evidence.

(** A request served by a handler, or a change the environment makes
    between requests: the wall clock moving (time passing, or the clock
    being set, back as well as forward), files being rewritten by
    others. *)
Inductive event : Type :=
| SimulateFail
| SelfHeal (overrun1 overrun2 : Z)
| RealFail
| RealHeal (overrun1 overrun2 : Z)
| RunBackup (archive_size : N)
| VerifyBackup
| BackupStatus (ts_epoch : Clock.float)
| BuildEvidence (e : Env)
| ScopeKpis (scope : string) (id : option string)
| Tick (dt : Z)
| Files (files : gmap string node).

Definition after {A} (m : M A) (w : World) : World := (m w).2.

Definition step (ev : event) (w : World) : World :=
  match ev with
  | SimulateFail => after simulate_fail w
  | SelfHeal o1 o2 => after (self_heal o1 o2) w
  | RealFail => after real_fail w
  | RealHeal o1 o2 => after (real_heal o1 o2) w
  | RunBackup sz => after (run_backup sz) w
  | VerifyBackup => after verify_backup w
  | BackupStatus ts_epoch => after (get_backup_status ts_epoch) w
  | BuildEvidence e => after (build_evidence_pack e) w
  | ScopeKpis scope id => after (get_scope_kpis scope id) w
  | Tick dt => set_clock (clock w + dt) w
  | Files files => set_fs files w
  end.

(** The world after a sequence of events, oldest first. *)
Fixpoint run (evs : list event) (w : World) : World :=
  match evs with
  | [] => w
  | ev :: evs' => run evs' (step ev w)
  end.

Definition is_ok {A} (r : res A) : bool :=
  match r with Ok _ => true | Raise _ => false end.

(** The body of a successful answer. *)
Definition answer (r : res json) : json :=
  match r with Ok v => v | Raise _ => JNull end.

(** How many [run_backup] requests of the run returned a backup. *)
Fixpoint backups_created (evs : list event) (w : World) : nat :=
  match evs with
  | [] => 0
  | ev :: evs' =>
      (match ev with
       | RunBackup sz => if is_ok (run_backup sz w).1 then 1 else 0
       | _ => 0
       end + backups_created evs' (step ev w))%nat
  end.

(** Events that neither add to the incident log nor touch its objects. *)
Definition keeps_log (ev : event) : bool :=
  match ev with
  | SelfHeal _ _ | RealFail | RealHeal _ _ => false
  | _ => true
  end.

(** A world the process can be in: some run from a fresh start. *)
Definition reachable (w : World) : Prop :=
  exists files now tz evs, w = run evs (initial_world files now tz).

End Process.

(** ** Concrete worlds used as examples *)

Module Samples.
Import Catalog Schema Ops Backup Evidence Process.

Definition dirs : gmap string node :=
  {[ BACKUP_DIR := Dir 4096; EVIDENCE_DIR := Dir 4096 ]}.

Definition boot : World := initial_world dirs 0 0.

Definition failed : World := after real_fail boot.

(** Five demo failures, each recovered: five closed records. *)
Definition five_recovered : World :=
  run (replicate 5 RealFail ++ replicate 5 (RealHeal 0 0)) boot.

Definition arch_a : Department :=
  mkDepartment "arch" "Architecture (Fine Arts)" {[ "co2e_t" := JInt 120 ]} None.
Definition arch_b : Department :=
  mkDepartment "arch" "Architecture (Engineering)" {[ "co2e_t" := JInt 300 ]}
    (Some [JStr "retrofit"]).
Definition design : Department :=
  mkDepartment "design" "Design" ∅ None.

Definition catalog : Catalog :=
  mkCatalog (mkCampus "Campus" {[ "co2e_t" := JInt 18450 ]} None)
    [ mkFaculty "law" "Law" ∅ None None;
      mkFaculty "fine_arts" "Fine Arts" ∅ None (Some [design; arch_a]);
      mkFaculty "engineering" "Engineering" ∅ None (Some [arch_b]) ].

Definition with_catalog : World := set_catalog_cache (enc_catalog catalog) boot.

Definition env1 : Env := mkEnv 0 20 false 3 900 (Clock.float_of_Z 0).
Definition env2 : Env := mkEnv 0 35 true 0 1200 (Clock.float_of_Z 0).

End Samples.

(** ** Catalog listings *)

Module Listing.
Import Catalog.

Definition fallback_faculties : json :=
  JList [JDict {[ "id" := JStr "fine_arts"; "name" := JStr "Fine Arts & Design";
                  "kpis" := JDict ∅ ]}].

(** [{"id": n["id"], "name": n["name"], "kpis": n["kpis"]}] *)
Definition summary_of (n : json) : res json :=
  i ← getitem n "id";
  name ← getitem n "name";
  kpis ← getitem n "kpis";
  Ok (JDict {[ "id" := i; "name" := name; "kpis" := kpis ]}).

(** The list comprehension over [it]: the first failing element aborts. *)
Fixpoint summaries (it : list json) : res (list json) :=
  match it with
  | [] => Ok []
  | n :: it' =>
      s ← summary_of n;
      rest ← summaries it';
      Ok (s :: rest)
  end.

Definition get_faculties : M json :=
  data ← load_catalog;
  if negb (truthy data) then mret fallback_faculties
  else lift (fl ← get data "faculties" (JList []);
             it ← py_iter fl;
             l ← summaries it;
             Ok (JList l)).

Definition get_departments (faculty_id : string) : M json :=
  data ← load_catalog;
  if negb (truthy data) then mret (JList [])
  else lift (fl ← getitem data "faculties";
             it ← py_iter fl;
             faculty ← next_with_id it (Some faculty_id);
             if negb (truthy faculty) then Ok (JList [])
             else
               ds ← get faculty "departments" (JList []);
               it' ← py_iter ds;
               l ← summaries it';
               Ok (JList l)).

End Listing.

(** ** Role-based recommendation *)

Module Brain.
Import Clock.

Definition lower_ascii (c : ascii) : ascii :=
  let n := nat_of_ascii c in
  if (65 <=? n)%nat && (n <=? 90)%nat then ascii_of_nat (n + 32) else c.

(** [s.lower()]. Only the letters A to Z are folded: no other character
    lowercases to a letter of the three role names compared below. *)
Fixpoint lower (s : string) : string :=
  match s with
  | "" => ""
  | String c s' => String (lower_ascii c) (lower s')
  end.

Definition tabs (l : list string) : json := JList (JStr <$> l).

(** The [if]/[elif] chain on [role_lower]: intent, tabs and message. *)
Definition recommend (role_lower : string) : string * list string * string :=
  if String.eqb role_lower "dean" then
    ("Strategic Overview", ["executive"; "generator"; "reporting"],
     "Focus on studio briefs + institutional output for Dean.")
  else if String.eqb role_lower "facility" then
    ("Operational Control", ["scopes"; "forecast"; "overview"],
     "Focus on energy forecasts + operational heatmap.")
  else if String.eqb role_lower "sustainability" then
    ("Compliance & Reporting", ["reporting"; "roadmap"; "overview"],
     "Focus on compliance reports + net-zero roadmap.")
  else
    ("General Overview", ["overview"; "roadmap"], "General campus overview.").

(** [brain_decide(context)]: [role.lower()] exists only for strings. *)
Definition brain_decide (context : gmap string json) : M json :=
  match default (JStr "Admin") (context !! "role") with
  | JStr role =>
      let role_lower := lower role in
      let '(intent, recommended_tabs, message) := recommend role_lower in
      t ← gets int_time;
      mret (JDict {[ "intent" := JStr intent;
                     "recommended_tabs" := tabs recommended_tabs;
                     "message" := JStr message;
                     "ts" := JInt t;
                     "confidence" := JFloat (95 # 100);
                     "reason" := JStr ("Role '" ++ role ++
                                       "' maps to strategic pillars.") ]})
  | _ => raise AttributeError
  end.

(** The four answers the handler can give. *)
Definition known_answers : list (string * list string * string) :=
  [ ("Strategic Overview", ["executive"; "generator"; "reporting"],
     "Focus on studio briefs + institutional output for Dean.");
    ("Operational Control", ["scopes"; "forecast"; "overview"],
     "Focus on energy forecasts + operational heatmap.");
    ("Compliance & Reporting", ["reporting"; "roadmap"; "overview"],
     "Focus on compliance reports + net-zero roadmap.");
    ("General Overview", ["overview"; "roadmap"], "General campus overview.") ].

End Brain.

(** ** Header of the GRI export *)

Module GriExport.
Import Catalog.

(** The scope line of the PDF header before it is formatted:
    ["Campus Overview"], [f"Faculty: {name}"] or [f"Department: {name}"]. *)
Inductive subtitle : Type :=
| CampusOverview
| FacultyOf (name : json)
| DepartmentOf (name : json).

(** The scope resolution at the head of [export_gri_pdf]. *)
Definition gri_scope_subtitle (scope : string) (id : option string)
  : M subtitle :=
  data ← load_catalog;
  if truthy data then
    if String.eqb scope "faculty" then
      lift (fl ← getitem data "faculties";
            it ← py_iter fl;
            f ← next_with_id it id;
            if truthy f then name ← getitem f "name"; Ok (FacultyOf name)
            else Ok CampusOverview)
    else if String.eqb scope "department" then
      lift (fl ← getitem data "faculties";
            it ← py_iter fl;
            d ← search_departments it id;
            if truthy d then name ← getitem d "name"; Ok (DepartmentOf name)
            else Ok CampusOverview)
    else mret CampusOverview
  else mret CampusOverview.

End GriExport.

(** ** Vocabulary for statements about listings, runs and logs *)

Module Views.
Import Schema Ops Backup Evidence Process.

Definition faculty_summary (f : Faculty) : json :=
  JDict {[ "id" := JStr (f_id f); "name" := JStr (f_name f);
           "kpis" := JDict (f_kpis f) ]}.

Definition department_summary (d : Department) : json :=
  JDict {[ "id" := JStr (d_id d); "name" := JStr (d_name d);
           "kpis" := JDict (d_kpis d) ]}.

(** Exceptions raised on purpose by a handler. *)
Definition is_http (e : exn) : bool :=
  match e with HTTPException _ _ => true | _ => false end.

Definition is_real_heal (ev : event) : bool :=
  match ev with RealHeal _ _ => true | _ => false end.

(** How many [real_heal] requests a run contains. *)
Definition real_heals (evs : list event) : nat :=
  length (List.filter is_real_heal evs).

Definition is_files (ev : event) : bool :=
  match ev with Files _ => true | _ => false end.

Definition is_run_backup (ev : event) : bool :=
  match ev with RunBackup _ => true | _ => false end.

(** The path a request writes to, if its handler writes at all: the
    archive [run_backup] and [build_evidence_pack] name after the
    clock. *)
Definition written_path (ev : event) (w : World) : option string :=
  match ev with
  | RunBackup _ => Some (path_join BACKUP_DIR (backup_name w))
  | BuildEvidence _ => Some (zip_path_of (pack_name w))
  | _ => None
  end.

(** How many records of a log are pending demo failures. *)
Definition pending_count (log : list Incident) : nat :=
  length (List.filter is_pending_demo log).

End Views.
(** ** Properties of the scope resolver *)

Module CatalogFacts.
Import Catalog Schema.

Lemma find_app {A} (p : A -> bool) (l1 l2 : list A) :
  List.find p (l1 ++ l2) =
  match List.find p l1 with Some x => Some x | None => List.find p l2 end.
Proof.
  induction l1 as [|a l1 IH]; simpl; [reflexivity|].
  destruct (p a); [reflexivity | exact IH].
Qed.

Lemma find_none_iff {A} (p : A -> bool) (l : list A) :
  List.find p l = None <-> forall a, a ∈ l -> p a = false.
Proof.
  induction l as [|a l IH]; simpl.
  - split; [intros _ a Ha; inversion Ha | reflexivity].
  - destruct (p a) eqn:E.
    + split; [discriminate|]. intros H.
      specialize (H a (list_elem_of_here _ _)). congruence.
    + rewrite IH. split.
      * intros H b Hb. apply elem_of_cons in Hb as [->|Hb]; auto.
      * intros H b Hb. apply H. now apply list_elem_of_further.
Qed.

Lemma has_id_false {A} (id_of : A -> string) X a :
  has_id id_of X a = false <-> id_of a <> X.
Proof. unfold has_id. apply String.eqb_neq. Qed.

(** Reading the fields of an encoded department. *)
Lemma department_id d : getitem (enc_department d) "id" = Ok (JStr (d_id d)).
Proof. destruct d as [i n k [l|]]; reflexivity. Qed.

Lemma department_name d :
  getitem (enc_department d) "name" = Ok (JStr (d_name d)).
Proof. destruct d as [i n k [l|]]; reflexivity. Qed.

Lemma department_kpis d :
  getitem (enc_department d) "kpis" = Ok (JDict (d_kpis d)).
Proof. destruct d as [i n k [l|]]; reflexivity. Qed.

Lemma department_levers d :
  get (enc_department d) "levers" (JList []) =
  Ok (JList (default [] (d_levers d))).
Proof. destruct d as [i n k [l|]]; reflexivity. Qed.

Lemma department_truthy d : truthy (enc_department d) = true.
Proof. destruct d as [i n k [l|]]; reflexivity. Qed.

Lemma faculty_id f : getitem (enc_faculty f) "id" = Ok (JStr (f_id f)).
Proof. destruct f as [i n k [l|] [ds|]]; reflexivity. Qed.

Lemma faculty_truthy f : truthy (enc_faculty f) = true.
Proof. destruct f as [i n k [l|] [ds|]]; reflexivity. Qed.

Lemma faculty_departments f :
  get (enc_faculty f) "departments" (JList []) =
  Ok (JList (enc_department <$> departments_of f)).
Proof. destruct f as [i n k [l|] [ds|]]; reflexivity. Qed.

Lemma catalog_truthy c : truthy (enc_catalog c) = true.
Proof. reflexivity. Qed.

Lemma catalog_faculties c :
  getitem (enc_catalog c) "faculties" = Ok (JList (enc_faculty <$> faculties c)).
Proof. reflexivity. Qed.

(** The generator stops at the first department whose id matches. *)
Lemma next_department ds X :
  next_with_id (enc_department <$> ds) (Some X) =
  Ok (enc_opt enc_department (List.find (has_id d_id X) ds)).
Proof.
  induction ds as [|d ds IH]; [reflexivity|].
  rewrite fmap_cons. cbn [next_with_id List.find].
  rewrite department_id. cbn. fold (has_id d_id X d).
  destruct (has_id d_id X d); [reflexivity | exact IH].
Qed.

Lemma next_faculty fs X :
  next_with_id (enc_faculty <$> fs) (Some X) =
  Ok (enc_opt enc_faculty (List.find (has_id f_id X) fs)).
Proof.
  induction fs as [|f fs IH]; [reflexivity|].
  rewrite fmap_cons. cbn [next_with_id List.find].
  rewrite faculty_id. cbn. fold (has_id f_id X f).
  destruct (has_id f_id X f); [reflexivity | exact IH].
Qed.

(** The loop over the faculties finds the first match of the
    concatenated department lists. *)
Lemma search_departments_first fs X :
  search_departments (enc_faculty <$> fs) (Some X) =
  Ok (enc_opt enc_department
        (List.find (has_id d_id X) (concat (departments_of <$> fs)))).
Proof.
  induction fs as [|f fs IH]; [reflexivity|].
  rewrite !fmap_cons. cbn [search_departments concat].
  rewrite faculty_departments, find_app. cbn.
  rewrite next_department. cbn -[truthy].
  destruct (List.find (has_id d_id X) (departments_of f)) as [d|];
    cbn -[truthy].
  - now rewrite department_truthy.
  - exact IH.
Qed.

Lemma load_catalog_total w : exists data w', load_catalog w = (Ok data, w').
Proof.
  unfold load_catalog. destruct (truthy (catalog_cache w)); [eauto|].
  destruct (fs w !! CATALOG_PATH) as [n|]; [|eauto].
  destruct (json_load n); eauto.
Qed.

(** A load changes nothing but the cache, and only when it was empty. *)
Lemma load_catalog_world w data w' :
  load_catalog w = (Ok data, w') ->
  w' = w \/ (truthy (catalog_cache w) = false /\ w' = set_catalog_cache data w).
Proof.
  unfold load_catalog. destruct (truthy (catalog_cache w)) eqn:E.
  - intros [= _ <-]. now left.
  - destruct (fs w !! CATALOG_PATH) as [n|]; [|intros [= _ <-]; now left].
    destruct (json_load n); intros [= <- <-]; auto.
Qed.

Lemma load_catalog_cached w :
  truthy (catalog_cache w) = true -> load_catalog w = (Ok (catalog_cache w), w).
Proof. unfold load_catalog. now intros ->. Qed.

Lemma get_scope_kpis_loaded scope id w data w' :
  load_catalog w = (Ok data, w') -> truthy data = true ->
  get_scope_kpis scope id w = (scope_of_data data scope id, w').
Proof.
  intros Hl Ht. unfold get_scope_kpis, mbind, M_bind.
  now rewrite Hl, Ht.
Qed.

Lemma get_scope_kpis_fallback scope id w data w' :
  load_catalog w = (Ok data, w') -> truthy data = false ->
  get_scope_kpis scope id w = (Ok fallback_scope, w').
Proof.
  intros Hl Ht. unfold get_scope_kpis, mbind, M_bind.
  now rewrite Hl, Ht.
Qed.

Lemma faculty_name f : getitem (enc_faculty f) "name" = Ok (JStr (f_name f)).
Proof. destruct f as [i n k [l|] [ds|]]; reflexivity. Qed.

Lemma faculty_kpis f : getitem (enc_faculty f) "kpis" = Ok (JDict (f_kpis f)).
Proof. destruct f as [i n k [l|] [ds|]]; reflexivity. Qed.

Lemma faculty_levers f :
  get (enc_faculty f) "levers" (JList []) = Ok (JList (default [] (f_levers f))).
Proof. destruct f as [i n k [l|] [ds|]]; reflexivity. Qed.

(** What [find] returns is the first element that passes the test. *)
Lemma find_first {A} (p : A -> bool) (l : list A) (a : A) :
  List.find p l = Some a <->
  exists before after,
    l = (before ++ a :: after)%list /\ p a = true /\
    forall b, b ∈ before -> p b = false.
Proof.
  induction l as [|x l IH]; cbn.
  - split; [discriminate|]. intros (before & after & H & _).
    destruct before; discriminate.
  - destruct (p x) eqn:E.
    + split.
      * intros [= <-]. exists [], l. repeat split; [exact E|].
        intros b Hb. inversion Hb.
      * intros ([|b before] & after & H & Hp & Hbefore).
        -- now injection H as <- _.
        -- injection H as <- _.
           specialize (Hbefore x (list_elem_of_here _ _)). congruence.
    + rewrite IH. split.
      * intros (before & after & -> & Hp & Hbefore).
        exists (x :: before), after. repeat split; [exact Hp|].
        intros b Hb. apply elem_of_cons in Hb as [->|Hb]; auto.
      * intros ([|b before] & after & H & Hp & Hbefore).
        -- injection H as <- _. congruence.
        -- injection H as <- ->. exists before, after.
           repeat split; [exact Hp|].
           intros b' Hb'. apply Hbefore. now apply list_elem_of_further.
Qed.

Lemma elem_of_all_departments c d :
  d ∈ all_departments c <->
  exists f, f ∈ faculties c /\ d ∈ departments_of f.
Proof.
  unfold all_departments. rewrite list_elem_of_In, in_concat. split.
  - intros (ds & Hds & Hd).
    apply list_elem_of_In, list_elem_of_fmap in Hds.
    destruct Hds as (f & -> & Hf). exists f. split; [exact Hf|].
    now apply list_elem_of_In.
  - intros (f & Hf & Hd). exists (departments_of f). split.
    + apply list_elem_of_In, list_elem_of_fmap. eauto.
    + now apply list_elem_of_In.
Qed.

Lemma scope_department_loaded c X :
  scope_of_data (enc_catalog c) "department" (Some X) =
  match first_department X c with
  | Some d =>
      Ok (node_response "department" (d_name d) (d_kpis d) (d_levers d))
  | None => Raise (HTTPException 404 "Department not found")
  end.
Proof.
  unfold scope_of_data. cbn [String.eqb Ascii.eqb Bool.eqb].
  rewrite catalog_faculties. cbn -[truthy].
  rewrite search_departments_first. cbn -[truthy].
  fold (all_departments c). fold (first_department X c).
  destruct (first_department X c) as [d|];
    cbn -[truthy getitem get enc_department]; [|reflexivity].
  rewrite department_truthy. cbn -[getitem get enc_department].
  rewrite department_name. cbn -[getitem get enc_department].
  rewrite department_kpis. cbn -[getitem get enc_department].
  rewrite department_levers. reflexivity.
Qed.

Lemma scope_faculty_loaded c X :
  scope_of_data (enc_catalog c) "faculty" (Some X) =
  match first_faculty X c with
  | Some f => Ok (node_response "faculty" (f_name f) (f_kpis f) (f_levers f))
  | None => Raise (HTTPException 404 "Faculty not found")
  end.
Proof.
  unfold scope_of_data. cbn [String.eqb Ascii.eqb Bool.eqb].
  rewrite catalog_faculties. cbn -[truthy].
  rewrite next_faculty. cbn -[truthy].
  fold (first_faculty X c).
  destruct (first_faculty X c) as [f|];
    cbn -[truthy getitem get enc_faculty]; [|reflexivity].
  rewrite faculty_truthy. cbn -[getitem get enc_faculty].
  rewrite faculty_name. cbn -[getitem get enc_faculty].
  rewrite faculty_kpis. cbn -[getitem get enc_faculty].
  rewrite faculty_levers. reflexivity.
Qed.

(** C4. With a catalog of the documented shape loaded,
    [get_scope_kpis("department", X)] answers with the first department
    of id [X] met when the faculties are scanned in catalog order and
    each faculty's departments in their order, whatever later faculties
    hold; it raises 404 exactly when no faculty has such a department. *)
Theorem resolve_department_first_match (c : Catalog) (X : string) (w w' : World) :
  load_catalog w = (Ok (enc_catalog c), w') ->
  get_scope_kpis "department" (Some X) w =
    (match first_department X c with
     | Some d =>
         Ok (node_response "department" (d_name d) (d_kpis d) (d_levers d))
     | None => Raise (HTTPException 404 "Department not found")
     end, w') /\
  (forall fs1 f fs2 ds1 d ds2,
     faculties c = (fs1 ++ f :: fs2)%list ->
     departments_of f = (ds1 ++ d :: ds2)%list ->
     d_id d = X ->
     (forall f' d', f' ∈ fs1 -> d' ∈ departments_of f' -> d_id d' <> X) ->
     (forall d', d' ∈ ds1 -> d_id d' <> X) ->
     (get_scope_kpis "department" (Some X) w).1 =
       Ok (node_response "department" (d_name d) (d_kpis d) (d_levers d))) /\
  (NotFound (get_scope_kpis "department" (Some X) w).1 <->
   forall f d, f ∈ faculties c -> d ∈ departments_of f -> d_id d <> X).
Proof.
  intros Hl.
  assert (Heq : get_scope_kpis "department" (Some X) w =
    (match first_department X c with
     | Some d =>
         Ok (node_response "department" (d_name d) (d_kpis d) (d_levers d))
     | None => Raise (HTTPException 404 "Department not found")
     end, w')).
  { rewrite (get_scope_kpis_loaded _ _ _ _ _ Hl (catalog_truthy c)).
    now rewrite scope_department_loaded. }
  split; [exact Heq|]. rewrite Heq. cbn [fst]. split.
  - intros fs1 f fs2 ds1 d ds2 Hfs Hds Hid Hfs1 Hds1.
    assert (first_department X c = Some d) as ->; [|reflexivity].
    apply find_first.
    exists (concat (departments_of <$> fs1) ++ ds1)%list,
           (ds2 ++ concat (departments_of <$> fs2))%list.
    repeat split.
    + unfold all_departments. rewrite Hfs, fmap_app, concat_app, fmap_cons.
      cbn [concat]. rewrite Hds. now rewrite <- !app_assoc.
    + unfold has_id. now apply String.eqb_eq.
    + intros b Hb. apply has_id_false. apply elem_of_app in Hb as [Hb|Hb].
      * apply (elem_of_all_departments (mkCatalog (campus c) fs1)) in Hb.
        destruct Hb as (f' & Hf' & Hb). eauto.
      * auto.
  - destruct (first_department X c) as [d|] eqn:E.
    + split; [intros [detail Hd]; discriminate|].
      intros Hnone. exfalso.
      apply find_first in E as (before & after & Hall & Hp & _).
      assert (Hin : d ∈ all_departments c).
      { rewrite Hall. apply elem_of_app. right. apply list_elem_of_here. }
      apply elem_of_all_departments in Hin as (f & Hf & Hd).
      apply (Hnone f d Hf Hd). unfold has_id in Hp.
      now apply String.eqb_eq.
    + split; [|intros _; eexists; reflexivity].
      intros _ f d Hf Hd. apply has_id_false.
      apply (proj1 (find_none_iff _ _) E).
      apply elem_of_all_departments. eauto.
Qed.

Lemma resolve_department_first_match_witness :
  (get_scope_kpis "department" (Some "arch") Samples.with_catalog).1 =
    Ok (node_response "department" "Architecture (Fine Arts)"
          {[ "co2e_t" := JInt 120 ]} None).
Proof.
  destruct (resolve_department_first_match Samples.catalog "arch"
              Samples.with_catalog Samples.with_catalog eq_refl)
    as [H _].
  rewrite H. reflexivity.
Defined.

(** C5, counterexample. With no catalog loaded the faculty scope does
    not fail: it answers with the campus fallback. *)
Lemma faculty_scope_without_catalog_is_fallback :
  (get_scope_kpis "faculty" (Some "unknown") Samples.boot).1 = Ok fallback_scope /\
  ~ NotFound (get_scope_kpis "faculty" (Some "unknown") Samples.boot).1.
Proof.
  split; [reflexivity|]. intros [detail H]. vm_compute in H. discriminate.
Qed.

(** C5 (as amended). With a catalog loaded that has no faculty of id
    [X], the faculty scope raises 404; with no catalog loaded it answers
    with the campus fallback. *)
Theorem resolve_faculty_unknown (X : string) (w w' : World) :
  (forall c,
     load_catalog w = (Ok (enc_catalog c), w') ->
     (forall f, f ∈ faculties c -> f_id f <> X) ->
     get_scope_kpis "faculty" (Some X) w =
       (Raise (HTTPException 404 "Faculty not found"), w')) /\
  (forall data,
     load_catalog w = (Ok data, w') -> truthy data = false ->
     get_scope_kpis "faculty" (Some X) w = (Ok fallback_scope, w')).
Proof.
  split.
  - intros c Hl Hnone.
    rewrite (get_scope_kpis_loaded _ _ _ _ _ Hl (catalog_truthy c)).
    rewrite scope_faculty_loaded.
    assert (first_faculty X c = None) as ->; [|reflexivity].
    apply find_none_iff. intros f Hf. apply has_id_false. auto.
  - intros data Hl Ht. now apply (get_scope_kpis_fallback _ _ _ data).
Qed.

Lemma resolve_faculty_unknown_witness :
  (get_scope_kpis "faculty" (Some "unknown") Samples.with_catalog).1 =
    Raise (HTTPException 404 "Faculty not found") /\
  (get_scope_kpis "faculty" (Some "unknown") Samples.boot).1 = Ok fallback_scope.
Proof.
  split.
  - rewrite (proj1 (resolve_faculty_unknown "unknown" Samples.with_catalog
                      Samples.with_catalog) Samples.catalog eq_refl);
      [reflexivity|].
    intros f Hf. vm_compute in Hf.
    repeat (apply elem_of_cons in Hf as [->|Hf]; [discriminate|]).
    inversion Hf.
  - now rewrite (proj2 (resolve_faculty_unknown "unknown" Samples.boot
                          Samples.boot) JNull eq_refl eq_refl).
Defined.

(** C6. With no catalog loaded, the campus scope answers with the
    literal fallback snapshot and empty levers, and does not raise. *)
Theorem campus_fallback_without_catalog id w data w' :
  load_catalog w = (Ok data, w') -> truthy data = false ->
  get_scope_kpis "campus" id w =
    (Ok (JDict {[ "scope" := JStr "campus";
                  "kpis" := JDict {[ "co2e_t" := JInt 18450;
                                     "energy_mwh" := JInt 14200;
                                     "water_m3" := JInt 45000;
                                     "intensity" := JFloat (12 # 10);
                                     "progress" := JInt 42 ]};
                  "levers" := JList [] ]}), w').
Proof. intros Hl Ht. now apply (get_scope_kpis_fallback _ _ _ data). Qed.

Lemma campus_fallback_without_catalog_witness :
  (get_scope_kpis "campus" None Samples.boot).1 = Ok fallback_scope.
Proof.
  now rewrite (campus_fallback_without_catalog None Samples.boot JNull
                 Samples.boot eq_refl eq_refl).
Defined.

(** C10. With a catalog loaded, a scope other than the three known ones
    is answered with an empty object; nothing is raised and the world is
    left as it was (a catalog read from disk during the call is kept in
    the cache, and nothing else changes). *)
Theorem unknown_scope_empty_object scope id w data w' :
  scope <> "campus" -> scope <> "faculty" -> scope <> "department" ->
  load_catalog w = (Ok data, w') -> truthy data = true ->
  get_scope_kpis scope id w = (Ok (JDict ∅), w') /\
  state w' = state w /\ heap w' = heap w /\ fs w' = fs w /\
  clock w' = clock w /\
  (truthy (catalog_cache w) = true -> w' = w).
Proof.
  intros Hc Hf Hd Hl Ht.
  rewrite (get_scope_kpis_loaded _ _ _ _ _ Hl Ht). unfold scope_of_data.
  apply String.eqb_neq in Hc, Hf, Hd. rewrite Hc, Hf, Hd.
  split; [reflexivity|].
  destruct (load_catalog_world _ _ _ Hl) as [->|[Hcache ->]].
  - repeat split; reflexivity.
  - repeat split; try reflexivity. intros Hcached. congruence.
Qed.

Lemma unknown_scope_empty_object_witness :
  get_scope_kpis "building" (Some "b1") Samples.with_catalog =
    (Ok (JDict ∅), Samples.with_catalog).
Proof.
  assert (Hl : load_catalog Samples.with_catalog =
               (Ok (catalog_cache Samples.with_catalog), Samples.with_catalog))
    by (apply load_catalog_cached; vm_compute; reflexivity).
  destruct (unknown_scope_empty_object "building" (Some "b1")
              Samples.with_catalog (catalog_cache Samples.with_catalog)
              Samples.with_catalog)
    as [H _].
  - discriminate.
  - discriminate.
  - discriminate.
  - exact Hl.
  - vm_compute. reflexivity.
  - exact H.
Defined.

End CatalogFacts.

(** ** Properties of the health state machine *)

Module OpsFacts.
Import Clock Ops.

Ltac unfold_m :=
  unfold mbind, M_bind, mret, M_ret, gets, modify_state, modify, sleep,
    alloc, insert_front, pop_if_over_5, set_workflow0_status.

(** *** What each handler computes *)

Lemma simulate_fail_eq w wf rest :
  workflows (state w) = wf :: rest ->
  simulate_fail w =
  (Ok (JDict {[ "status" := JStr "System set to DEGRADED" ]}),
   set_state
     (mkState "DEGRADED" (Some "API Latency Spike detected")
        (retrying wf :: rest) (incidents (state w)) (last_backup (state w)))
     w).
Proof.
  intros H. unfold simulate_fail. unfold_m. cbn. now rewrite H.
Qed.

Lemma real_fail_eq w :
  real_fail w =
  let l := fresh (dom (heap w)) in
  (Ok ("System DEGRADED", l),
   mkWorld
     (mkState "DEGRADED" (Some "Critical Failure: API Unresponsive")
        (workflows (state w)) (pop_over_5 (l :: incidents (state w)))
        (last_backup (state w)))
     (<[l := demo_failure (strftime_HMS w)]> (heap w))
     (catalog_cache w) (fs w) (clock w) (utc_offset w)).
Proof. reflexivity. Qed.

Lemma self_heal_eq o1 o2 w wf rest :
  workflows (state w) = wf :: rest ->
  self_heal o1 o2 w =
  let l := fresh (dom (heap w)) in
  let t := after_sleeps 1 o1 o2 w in
  (Ok ("System Healed", l),
   mkWorld
     (mkState "OK" (Some "Resolved: Latency Spike") (running wf :: rest)
        (pop_over_5 (l :: incidents (state w))) (last_backup (state w)))
     (<[l := latency_resolved (strftime_HMS (set_clock t w))
               (float_ms (time_time w) (time_time (set_clock t w)))]>
        (heap w))
     (catalog_cache w) (fs w) t (utc_offset w)).
Proof.
  intros H. unfold self_heal. unfold_m. cbn. now rewrite H.
Qed.

Lemma real_heal_found_eq o1 o2 w wf rest l :
  workflows (state w) = wf :: rest ->
  find_pending (heap w) (incidents (state w)) = Some l ->
  real_heal o1 o2 w =
  (Ok ("System Restored", l),
   mkWorld
     (mkState "OK" (Some "System Recovered") (running wf :: rest)
        (incidents (state w)) (last_backup (state w)))
     (alter recover l (heap w))
     (catalog_cache w) (fs w) (after_sleeps 2 o1 o2 w) (utc_offset w)).
Proof.
  intros H Hf. unfold real_heal. unfold_m. cbn. rewrite Hf. cbn.
  now rewrite H.
Qed.

Lemma real_heal_fallback_eq o1 o2 w wf rest :
  workflows (state w) = wf :: rest ->
  find_pending (heap w) (incidents (state w)) = None ->
  real_heal o1 o2 w =
  let l := fresh (dom (heap w)) in
  let t := after_sleeps 2 o1 o2 w in
  (Ok ("System Restored", l),
   mkWorld
     (mkState "OK" (Some "System Recovered") (running wf :: rest)
        (l :: incidents (state w)) (last_backup (state w)))
     (<[l := manual_restart (strftime_HMS (set_clock t w))]> (heap w))
     (catalog_cache w) (fs w) t (utc_offset w)).
Proof.
  intros H Hf. unfold real_heal. unfold_m. cbn. rewrite Hf. cbn.
  now rewrite H.
Qed.

(** *** Lists of references and the objects behind them *)

Section Deref.
Context (h : gmap loc Incident).

Abbreviation live := (live h).

Lemma omap_live_length log :
  live log -> length (omap (fun l => h !! l) log) = length log.
Proof.
  induction 1 as [|l log [inc Hl] _ IH]; [reflexivity|].
  cbn. rewrite Hl. cbn. now rewrite IH.
Qed.

Lemma omap_live_removelast log :
  live log ->
  omap (fun l => h !! l) (removelast log) =
  removelast (omap (fun l => h !! l) log).
Proof.
  induction 1 as [|l log [inc Hl] Hlive IH]; [reflexivity|].
  destruct log as [|l' log'].
  - cbn. now rewrite Hl.
  - change (removelast (l :: l' :: log')) with (l :: removelast (l' :: log')).
    pose proof (omap_live_length _ Hlive) as Hlen.
    remember (l' :: log') as r eqn:Hr.
    cbn. rewrite Hl, IH. cbn.
    destruct (omap (fun l => h !! l) r); [subst r; discriminate|].
    reflexivity.
Qed.

Lemma omap_live_pop_over_5 log :
  live log ->
  omap (fun l => h !! l) (pop_over_5 log) =
  pop_over_5 (omap (fun l => h !! l) log).
Proof.
  intros Hlive. unfold pop_over_5.
  rewrite (omap_live_length _ Hlive).
  destruct (5 <? _); [now apply omap_live_removelast | reflexivity].
Qed.

Lemma omap_insert_fresh log l inc :
  h !! l = None -> live log ->
  omap (fun l' => <[l := inc]> h !! l') log = omap (fun l' => h !! l') log.
Proof.
  intros Hfresh. induction 1 as [|l' log [inc' Hl'] _ IH]; [reflexivity|].
  cbn. rewrite IH. rewrite lookup_insert_ne; [reflexivity|].
  intros ->. congruence.
Qed.

End Deref.

Lemma fresh_unused (h : gmap loc Incident) : h !! fresh (dom h) = None.
Proof. apply not_elem_of_dom, is_fresh. Qed.

Lemma heap_ok_live w : heap_ok w -> live (heap w) (incidents (state w)).
Proof. intros [_ H]. apply Forall_forall. exact H. Qed.

Lemma removelast_take {A} (l : list A) : removelast l = take (length l - 1) l.
Proof. rewrite removelast_firstn_len. f_equal. lia. Qed.

Lemma pop_over_5_sublist {A} (log : list A) : pop_over_5 log `sublist_of` log.
Proof.
  unfold pop_over_5. destruct (5 <? _); [|reflexivity].
  rewrite removelast_take. apply sublist_take.
Qed.

(** With at most five entries before the insertion, the pop keeps the
    five most recent ones. *)
Lemma pop_over_5_cons {A} (x : A) (log : list A) :
  (length log <= 5)%nat -> pop_over_5 (x :: log) = take 5 (x :: log).
Proof.
  intros Hlen. unfold pop_over_5.
  destruct (5 <? _) eqn:E.
  - apply Z.ltb_lt in E. rewrite removelast_take. f_equal.
    cbn [length] in *. lia.
  - apply Z.ltb_ge in E. symmetry. apply take_ge. cbn [length] in *. lia.
Qed.

(** At exactly five entries the one dropped is the last, the oldest. *)
Lemma pop_over_5_full {A} (x : A) (log : list A) :
  length log = 5%nat -> pop_over_5 (x :: log) = x :: removelast log.
Proof.
  intros Hlen. unfold pop_over_5. cbn [length]. rewrite Hlen. cbn.
  destruct log; [discriminate | reflexivity].
Qed.

Lemma pop_over_5_length {A} (x : A) (log : list A) :
  (length log <= 5)%nat -> (length (pop_over_5 (x :: log)) <= 5)%nat.
Proof.
  intros H. rewrite pop_over_5_cons by exact H. rewrite length_take. lia.
Qed.

(** *** The heap invariant is kept *)

Lemma heap_ok_push w l inc (wfs : list Workflow) st li lb c f t tz :
  heap_ok w -> l = fresh (dom (heap w)) ->
  heap_ok (mkWorld (mkState st li wfs (pop_over_5 (l :: incidents (state w))) lb)
             (<[l := inc]> (heap w)) c f t tz).
Proof.
  intros [Hnd Hlive] ->. set (l := fresh (dom (heap w))).
  assert (Hl : l ∉ incidents (state w)).
  { intros Hin. destruct (Hlive _ Hin) as [x Hx].
    pose proof (fresh_unused (heap w)). unfold l in Hx. congruence. }
  split; cbn.
  - eapply sublist_NoDup; [|apply pop_over_5_sublist].
    now apply NoDup_cons.
  - intros l' Hin.
    apply (fun H => elem_of_sublist _ _ _ H (pop_over_5_sublist _)) in Hin.
    destruct (decide (l' = l)) as [->|Hne].
    + rewrite lookup_insert_eq. eauto.
    + rewrite lookup_insert_ne by congruence.
      apply elem_of_cons in Hin as [?|Hin]; [congruence|]. now apply Hlive.
Qed.

Lemma heap_ok_real_fail w : heap_ok w -> heap_ok (real_fail w).2.
Proof. intros H. rewrite real_fail_eq. cbn. now apply heap_ok_push. Qed.

Lemma heap_ok_self_heal o1 o2 w :
  heap_ok w -> heap_ok (self_heal o1 o2 w).2.
Proof.
  intros H. destruct (workflows (state w)) as [|wf rest] eqn:E.
  - unfold self_heal. unfold_m. cbn. rewrite E. cbn.
    now apply heap_ok_push.
  - rewrite (self_heal_eq _ _ _ _ _ E). cbn. now apply heap_ok_push.
Qed.

Lemma heap_ok_simulate_fail w : heap_ok w -> heap_ok (simulate_fail w).2.
Proof.
  intros H. unfold simulate_fail. unfold_m. cbn.
  destruct (workflows (state w)); exact H.
Qed.

(** *** The scan for a pending incident *)

Lemma find_pending_Some (h : gmap loc Incident) (log : list loc) (l : loc) :
  find_pending h log = Some l ->
  l ∈ log /\ exists inc, h !! l = Some inc /\ is_pending_demo inc = true.
Proof.
  induction log as [|l0 log IH]; cbn; [discriminate|].
  destruct (h !! l0) as [inc0|] eqn:E0.
  - destruct (is_pending_demo inc0) eqn:Ep.
    + intros [= <-]. split; [apply list_elem_of_here | eauto].
    + intros H. destruct (IH H) as [Hin Hinc].
      split; [now apply list_elem_of_further | exact Hinc].
  - intros H. destruct (IH H) as [Hin Hinc].
    split; [now apply list_elem_of_further | exact Hinc].
Qed.

Lemma find_pending_None (h : gmap loc Incident) (log : list loc) :
  live h log ->
  find_pending h log = None <->
  forall inc, inc ∈ omap (fun l => h !! l) log -> is_pending_demo inc = false.
Proof.
  induction 1 as [|l0 log [inc0 E0] _ IH]; cbn.
  - split; [intros _ inc Hin; inversion Hin | reflexivity].
  - rewrite E0. cbn. destruct (is_pending_demo inc0) eqn:Ep.
    + split; [discriminate|]. intros H.
      specialize (H inc0 (list_elem_of_here _ _)). congruence.
    + rewrite IH. split.
      * intros H inc Hin. apply elem_of_cons in Hin as [->|Hin]; auto.
      * intros H inc Hin. apply H. now apply list_elem_of_further.
Qed.

Lemma omap_alter_notin (f : Incident -> Incident)
  (h : gmap loc Incident) (log : list loc) (l : loc) :
  l ∉ log ->
  omap (fun l' => alter f l h !! l') log = omap (fun l' => h !! l') log.
Proof.
  induction log as [|l0 log IH]; [reflexivity|].
  intros Hl. apply not_elem_of_cons in Hl as [Hne Hl].
  cbn. rewrite IH by exact Hl. now rewrite lookup_alter_ne.
Qed.

(** The scan stops at the first pending record, and the update through
    that reference rewrites exactly that position of the log. *)
Lemma find_pending_view (h : gmap loc Incident) (log : list loc) (l : loc) :
  NoDup log -> live h log -> find_pending h log = Some l ->
  exists (i : nat) inc,
    log !! i = Some l /\
    omap (fun l' => h !! l') log !! i = Some inc /\
    is_pending_demo inc = true /\
    (forall (j : nat) inc', (j < i)%nat ->
       omap (fun l' => h !! l') log !! j = Some inc' ->
       is_pending_demo inc' = false) /\
    omap (fun l' => alter recover l h !! l') log =
    <[i := recover inc]> (omap (fun l' => h !! l') log).
Proof.
  intros Hnd Hlive. revert Hnd.
  induction Hlive as [|l0 log [inc0 E0] Hlive IH]; cbn; [discriminate|].
  intros Hnd Hf. apply NoDup_cons in Hnd as [Hl0 Hnd].
  rewrite E0 in Hf. destruct (is_pending_demo inc0) eqn:Ep.
  - injection Hf as <-. exists 0%nat, inc0. rewrite E0. cbn.
    repeat split; try done.
    + intros j inc' Hj. lia.
    + rewrite lookup_alter_eq, E0. cbn. f_equal.
      now apply omap_alter_notin.
  - destruct (IH Hnd Hf) as (i & inc & Hi & Hv & Hp & Hbefore & Hupd).
    exists (S i), inc. rewrite E0. cbn.
    assert (l <> l0).
    { intros ->. apply Hl0. now apply find_pending_Some in Hf as [? _]. }
    repeat split; try done.
    + intros [|j] inc' Hj; cbn.
      * now intros [= <-].
      * apply Hbefore. lia.
    + rewrite lookup_alter_ne, E0 by done. cbn. now rewrite Hupd.
Qed.

Lemma heap_ok_alter w l st li wfs lb c f t tz :
  heap_ok w ->
  heap_ok (mkWorld (mkState st li wfs (incidents (state w)) lb)
             (alter recover l (heap w)) c f t tz).
Proof.
  intros [Hnd Hlive]. split; cbn; [exact Hnd|].
  intros l' Hin. destruct (Hlive _ Hin) as [inc Hinc].
  destruct (decide (l = l')) as [->|Hne].
  - rewrite lookup_alter_eq, Hinc. cbn. eauto.
  - rewrite lookup_alter_ne by done. eauto.
Qed.

Lemma heap_ok_cons w l inc st li wfs lb c f t tz :
  heap_ok w -> l = fresh (dom (heap w)) ->
  heap_ok (mkWorld (mkState st li wfs (l :: incidents (state w)) lb)
             (<[l := inc]> (heap w)) c f t tz).
Proof.
  intros [Hnd Hlive] ->. set (l := fresh (dom (heap w))).
  assert (Hl : l ∉ incidents (state w)).
  { intros Hin. destruct (Hlive _ Hin) as [x Hx].
    pose proof (fresh_unused (heap w)). unfold l in Hx. congruence. }
  split; cbn.
  - now apply NoDup_cons.
  - intros l' Hin. destruct (decide (l' = l)) as [->|Hne].
    + rewrite lookup_insert_eq. eauto.
    + rewrite lookup_insert_ne by congruence.
      apply elem_of_cons in Hin as [?|Hin]; [congruence|]. now apply Hlive.
Qed.

Lemma heap_ok_real_heal o1 o2 w :
  heap_ok w -> heap_ok (real_heal o1 o2 w).2.
Proof.
  intros H.
  destruct (find_pending (heap w) (incidents (state w))) as [l|] eqn:Ef;
    destruct (workflows (state w)) as [|wf rest] eqn:E.
  - unfold real_heal. unfold_m. cbn. rewrite Ef. cbn. rewrite E. cbn.
    now apply heap_ok_alter.
  - rewrite (real_heal_found_eq _ _ _ _ _ _ E Ef). cbn.
    now apply heap_ok_alter.
  - unfold real_heal. unfold_m. cbn. rewrite Ef. cbn. rewrite E. cbn.
    now apply heap_ok_cons.
  - rewrite (real_heal_fallback_eq _ _ _ _ _ E Ef). cbn.
    now apply heap_ok_cons.
Qed.

(** The log a reader sees after a push of a new object. *)
Lemma incident_log_push w l inc st li wfs lb c f t tz :
  heap_ok w -> l = fresh (dom (heap w)) ->
  incident_log (mkWorld (mkState st li wfs (pop_over_5 (l :: incidents (state w))) lb)
                  (<[l := inc]> (heap w)) c f t tz)
  = pop_over_5 (inc :: incident_log w).
Proof.
  intros Hok ->. pose proof (heap_ok_live _ Hok) as Hlive.
  pose proof (fresh_unused (heap w)) as Hfresh.
  unfold incident_log. cbn [state heap incidents].
  rewrite omap_live_pop_over_5.
  - cbn. rewrite lookup_insert_eq. cbn.
    now rewrite omap_insert_fresh.
  - constructor.
    + rewrite lookup_insert_eq. eauto.
    + eapply Forall_impl; [exact Hlive|]. cbn. intros l' [x Hx].
      rewrite lookup_insert_ne; [eauto|]. intros <-. congruence.
Qed.

Lemma incident_log_cons w l inc st li wfs lb c f t tz :
  heap_ok w -> l = fresh (dom (heap w)) ->
  incident_log (mkWorld (mkState st li wfs (l :: incidents (state w)) lb)
                  (<[l := inc]> (heap w)) c f t tz)
  = inc :: incident_log w.
Proof.
  intros Hok ->. pose proof (heap_ok_live _ Hok) as Hlive.
  pose proof (fresh_unused (heap w)) as Hfresh.
  unfold incident_log. cbn. rewrite lookup_insert_eq. cbn.
  now rewrite omap_insert_fresh.
Qed.

Lemma incident_log_length w :
  heap_ok w -> length (incident_log w) = length (incidents (state w)).
Proof. intros H. apply omap_live_length. now apply heap_ok_live. Qed.

Lemma find_pending_exists w inc :
  heap_ok w -> inc ∈ incident_log w -> is_pending_demo inc = true ->
  exists l, find_pending (heap w) (incidents (state w)) = Some l.
Proof.
  intros Hok Hin Hp.
  destruct (find_pending (heap w) (incidents (state w))) as [l|] eqn:E;
    [eauto|].
  pose proof (proj1 (find_pending_None _ _ (heap_ok_live _ Hok)) E inc Hin).
  congruence.
Qed.

(** *** Claims about fail and heal *)

(** C1 (as amended). From every state whose log holds a pending
    [api_failure_demo] record, [real_heal] ends with health [OK], leaves
    the list of log entries as it was, and rewrites the most recent such
    record in place: its result becomes [Recovered] and its
    [duration_ms] the fixed value 12800. *)
Theorem real_heal_recovers_in_place o1 o2 w wf rest pending :
  heap_ok w ->
  workflows (state w) = wf :: rest ->
  pending ∈ incident_log w ->
  is_pending_demo pending = true ->
  exists l w' (i : nat) inc,
    real_heal o1 o2 w = (Ok ("System Restored", l), w') /\
    system_status (state w') = "OK" /\
    incidents (state w') = incidents (state w) /\
    incidents (state w) !! i = Some l /\
    incident_log w !! i = Some inc /\
    is_pending_demo inc = true /\
    (forall (j : nat) inc', (j < i)%nat ->
       incident_log w !! j = Some inc' -> is_pending_demo inc' = false) /\
    incident_log w' =
      <[i := mkIncident (inc_ts inc) (inc_type inc) (inc_action inc)
               "Recovered" (inc_severity inc) 12800]> (incident_log w) /\
    length (incident_log w') = length (incident_log w).
Proof.
  intros Hok Hwf Hin Hp.
  destruct (find_pending_exists _ _ Hok Hin Hp) as [l Hf].
  pose proof (heap_ok_live _ Hok) as Hlive. destruct Hok as [Hnd _].
  destruct (find_pending_view _ _ _ Hnd Hlive Hf)
    as (i & inc & Hi & Hv & Hpi & Hbefore & Hupd).
  eexists l, _, i, inc. rewrite (real_heal_found_eq _ _ _ _ _ _ Hwf Hf).
  split; [reflexivity|]. unfold incident_log. cbn.
  repeat split; try done.
  rewrite Hupd. apply length_insert.
Qed.

(** C2 (as amended). [simulate_fail] sets health, the last-incident text
    and the status of workflow 0 and leaves the incident log alone;
    [real_fail] sets health and the last-incident text, puts a new
    pending record in front of the log, drops the last record when the
    log then has more than five, and leaves the workflows alone. *)
Theorem fail_transitions w :
  heap_ok w ->
  (forall wf rest, workflows (state w) = wf :: rest ->
     exists r w',
       simulate_fail w = (Ok r, w') /\
       system_status (state w') = "DEGRADED" /\
       last_incident (state w') = Some "API Latency Spike detected" /\
       workflows (state w') =
         mkWorkflow (wf_name wf) "Retrying..." (wf_last_run wf)
           (wf_next_run wf) :: rest /\
       incident_log w' = incident_log w) /\
  (exists l w' ts,
     real_fail w = (Ok ("System DEGRADED", l), w') /\
     system_status (state w') = "DEGRADED" /\
     last_incident (state w') = Some "Critical Failure: API Unresponsive" /\
     workflows (state w') = workflows (state w) /\
     heap w !! l = None /\
     incident_log w' =
       pop_over_5
         (mkIncident ts "api_failure_demo" "restart_api" "Pending" "HIGH" 0
            :: incident_log w) /\
     ((length (incident_log w) <= 5)%nat ->
      incident_log w' =
        take 5
          (mkIncident ts "api_failure_demo" "restart_api" "Pending" "HIGH" 0
             :: incident_log w))).
Proof.
  intros Hok. split.
  - intros wf rest Hwf. eexists _, _.
    rewrite (simulate_fail_eq _ _ _ Hwf). split; [reflexivity|]. done.
  - eexists _, _, (strftime_HMS w). rewrite real_fail_eq. cbn zeta.
    split; [reflexivity|]. cbn [state system_status last_incident workflows heap].
    repeat split.
    + apply fresh_unused.
    + now apply incident_log_push.
    + intros Hlen. rewrite incident_log_push by done.
      now apply pop_over_5_cons.
Qed.



(** C1, counterexample. After [real_fail] and then [real_heal], which
    took three seconds, the recovered record carries 12800 and not the
    3000 milliseconds that elapsed. *)
Lemma real_heal_duration_is_not_measured :
  let w1 := Samples.failed in
  let w2 := (real_heal 0 0 w1).2 in
  incident_log w1 = [demo_failure "00:00:00"] /\
  incident_log w2 =
    [mkIncident "00:00:00" "api_failure_demo" "restart_api" "Recovered"
       "HIGH" 12800] /\
  elapsed_ms w1 w2 = 3000 /\
  inc_duration_ms <$> incident_log w2 <> [elapsed_ms w1 w2].
Proof. vm_compute. repeat split; congruence. Qed.

Lemma heap_ok_initial files now tz : heap_ok (initial_world files now tz).
Proof.
  split; cbn; [constructor|]. intros l Hl. inversion Hl.
Qed.

Lemma real_heal_recovers_in_place_witness :
  exists l w',
    real_heal 0 0 Samples.failed = (Ok ("System Restored", l), w') /\
    system_status (state w') = "OK" /\
    incidents (state w') = incidents (state Samples.failed).
Proof.
  destruct (real_heal_recovers_in_place 0 0 Samples.failed
              (mkWorkflow "Incident Agent" "Running" "2m ago" "in 3m")
              (tail (workflows initial_state))
              (demo_failure "00:00:00"))
    as (l & w' & i & inc & H1 & H2 & H3 & _).
  - apply heap_ok_real_fail, heap_ok_initial.
  - reflexivity.
  - vm_compute. apply list_elem_of_here.
  - reflexivity.
  - exists l, w'. auto.
Defined.

(** C2, counterexample. [simulate_fail] inserts no incident record, and
    [real_fail] leaves workflow 0 running. *)
Lemma fail_variants_each_skip_a_step :
  incident_log (simulate_fail Samples.boot).2 = [] /\
  wf_status <$> head (workflows (state (real_fail Samples.boot).2)) =
    Some "Running".
Proof. vm_compute. split; reflexivity. Qed.

Lemma fail_transitions_witness :
  (exists r w', simulate_fail Samples.boot = (Ok r, w') /\
                system_status (state w') = "DEGRADED") /\
  (exists l w', real_fail Samples.boot = (Ok ("System DEGRADED", l), w') /\
                system_status (state w') = "DEGRADED").
Proof.
  destruct (fail_transitions Samples.boot (heap_ok_initial _ _ _))
    as [Hs (l & w' & ts & H1 & H2 & _)].
  split.
  - destruct (Hs (mkWorkflow "Incident Agent" "Running" "2m ago" "in 3m")
                (tail (workflows initial_state)) eq_refl)
      as (r & w1 & E & Hst & _).
    exists r, w1. auto.
  - exists l, w'. auto.
Defined.





(** *** The cap of five entries *)

Lemma real_fail_keeps_cap w :
  heap_ok w -> (length (incident_log w) <= 5)%nat ->
  (length (incident_log (real_fail w).2) <= 5)%nat.
Proof.
  intros Hok Hlen. rewrite real_fail_eq. cbn zeta. cbn [snd].
  rewrite incident_log_push by done. now apply pop_over_5_length.
Qed.

Lemma self_heal_keeps_cap o1 o2 w :
  heap_ok w -> (length (incident_log w) <= 5)%nat ->
  (length (incident_log (self_heal o1 o2 w).2) <= 5)%nat.
Proof.
  intros Hok Hlen.
  assert (exists inc, incident_log (self_heal o1 o2 w).2 =
                      pop_over_5 (inc :: incident_log w)) as [inc ->].
  { destruct (workflows (state w)) as [|wf rest] eqn:E.
    - unfold self_heal. unfold_m. cbn. rewrite E. cbn [snd].
      eexists. now apply incident_log_push.
    - rewrite (self_heal_eq _ _ _ _ _ E). cbn zeta. cbn [snd].
      eexists. now apply incident_log_push. }
  now apply pop_over_5_length.
Qed.

(** The branch of [real_heal] that makes a record never pops. *)
Lemma real_heal_fallback_grows o1 o2 w :
  heap_ok w ->
  (forall inc, inc ∈ incident_log w -> is_pending_demo inc = false) ->
  length (incident_log (real_heal o1 o2 w).2) = S (length (incident_log w)).
Proof.
  intros Hok Hnone.
  assert (Hf : find_pending (heap w) (incidents (state w)) = None).
  { apply find_pending_None; [now apply heap_ok_live | exact Hnone]. }
  assert (exists inc, incident_log (real_heal o1 o2 w).2 =
                      inc :: incident_log w) as [inc ->]; [|reflexivity].
  destruct (workflows (state w)) as [|wf rest] eqn:E.
  - unfold real_heal. unfold_m. cbn. rewrite Hf. cbn. rewrite E. cbn [snd].
    eexists. now apply incident_log_cons.
  - rewrite (real_heal_fallback_eq _ _ _ _ _ E Hf). cbn zeta. cbn [snd].
    eexists. now apply incident_log_cons.
Qed.

(** C3, the failing input. With five closed records in the log,
    [real_fail] and [self_heal] keep five, and [real_heal], finding
    nothing pending, leaves six. *)
Theorem real_heal_fallback_exceeds_cap :
  let w := Samples.five_recovered in
  length (incident_log w) = 5%nat /\
  forallb (fun inc => negb (is_pending_demo inc)) (incident_log w) = true /\
  length (incident_log (real_fail w).2) = 5%nat /\
  length (incident_log (self_heal 0 0 w).2) = 5%nat /\
  length (incident_log (real_heal 0 0 w).2) = 6%nat.
Proof. vm_compute. repeat split; reflexivity. Qed.

End OpsFacts.

(** ** Properties of backups and evidence packs *)

Module ArtifactFacts.
Import Clock Ops Backup Evidence Process CatalogFacts OpsFacts.

#[local] Arguments str : simpl never.
#[local] Arguments path_join : simpl never.
#[local] Arguments now_iso : simpl never.
#[local] Arguments isoformat : simpl never.
#[local] Arguments int_time : simpl never.
#[local] Arguments backup_name : simpl never.
#[local] Arguments pack_name : simpl never.
#[local] Arguments zip_path_of : simpl never.
#[local] Arguments summary_md : simpl never.
#[local] Arguments backup_text : simpl never.

(** *** Names derived from the clock *)

Lemma str_inj a b : str a = str b -> a = b.
Proof.
  unfold str. intros H. apply DecimalZ.to_int_inj.
  assert (Hn : forall z, Z.to_int z <> Decimal.Pos Decimal.Nil /\
                        Z.to_int z <> Decimal.Neg Decimal.Nil).
  { intros [|p|p]; cbn; split; try discriminate;
      intros [= E]; now apply DecimalPos.Unsigned.to_uint_nonnil in E. }
  pose proof (NilZero.isi _ (proj1 (Hn a)) (proj2 (Hn a))) as Ha.
  pose proof (NilZero.isi _ (proj1 (Hn b)) (proj2 (Hn b))) as Hb.
  rewrite H in Ha. congruence.
Qed.

Lemma length_append (s1 s2 : string) :
  String.length (s1 ++ s2) = (String.length s1 + String.length s2)%nat.
Proof.
  induction s1 as [|c s1 IH]; [reflexivity|].
  change (String c s1 ++ s2) with (String c (s1 ++ s2)).
  cbn [String.length]. now rewrite IH.
Qed.

Lemma append_cancel_r (x y s : string) : x ++ s = y ++ s -> x = y.
Proof.
  revert y. induction x as [|c x IH]; intros [|d y] H.
  - reflexivity.
  - exfalso. apply (f_equal String.length) in H.
    change (String.length s = S (String.length (y ++ s))) in H.
    rewrite length_append in H. lia.
  - exfalso. apply (f_equal String.length) in H.
    change (S (String.length (x ++ s)) = String.length s) in H.
    rewrite length_append in H. lia.
  - change (String c (x ++ s) = String d (y ++ s)) in H.
    injection H as -> H. f_equal. now apply IH.
Qed.

Lemma pack_name_inj w1 w2 :
  pack_name w1 = pack_name w2 -> int_time w1 = int_time w2.
Proof. unfold pack_name. intros [= H]. now apply str_inj. Qed.

Lemma zip_path_of_inj id1 id2 :
  zip_path_of ("evidence_" ++ id1) = zip_path_of ("evidence_" ++ id2) ->
  id1 = id2.
Proof.
  unfold zip_path_of, path_join. cbn. intros [= H].
  now apply append_cancel_r in H.
Qed.

Lemma backup_name_truthy w : file_truthy (Some (backup_name w)) = true.
Proof. reflexivity. Qed.

(** *** What [verify_backup] decides *)

Lemma verify_backup_eq w :
  verify_backup w =
  (match lb_file (last_backup (state w)) with
   | Some file =>
       if String.eqb file "" then Raise (HTTPException 404 "No backup found")
       else match fs w !! path_join BACKUP_DIR file with
            | Some n =>
                if (0 <? node_size n)%N then Ok (JDict {[ "ok" := JBool true ]})
                else Raise (HTTPException 500 "Backup file missing or empty")
            | None => Raise (HTTPException 500 "Backup file missing or empty")
            end
   | None => Raise (HTTPException 404 "No backup found")
   end, w).
Proof.
  unfold verify_backup, getsize, exists_path, raise. unfold_m. cbn.
  destruct (lb_file (last_backup (state w))) as [file|]; cbn; [|reflexivity].
  destruct (String.eqb file ""); cbn; [reflexivity|].
  destruct (fs w !! path_join BACKUP_DIR file) as [n|] eqn:E; cbn.
  - rewrite E. cbn. now destruct (0 <? node_size n)%N.
  - reflexivity.
Qed.

(** *** What [run_backup] leaves behind *)

Lemma run_backup_cases sz w :
  (exists r members,
     run_backup sz w =
       (Ok r,
        mkWorld
          (set_last_backup
             (mkLastBackup (Some (now_iso w)) (Some (backup_name w)) sz)
             (state w))
          (heap w) (catalog_cache w)
          (<[path_join BACKUP_DIR (backup_name w) := File sz (BTarGz members)]>
             (fs w))
          (clock w) (utc_offset w))) \/
  (exists e, run_backup sz w = (Raise e, w)).
Proof.
  unfold run_backup, open_for_write, close_archive, getsize. unfold_m. cbn.
  destruct (fs w !! BACKUP_DIR) as [[d|s b]|]; [|right; eauto..].
  destruct (fs w !! path_join BACKUP_DIR (backup_name w)) as [[d'|s b]|] eqn:E;
    [right; eauto|left..].
  all: rewrite lookup_insert_eq; cbn; rewrite insert_insert_eq;
    eexists _, _; reflexivity.
Qed.

(** *** The projections read and do not write *)

Lemma get_system_status_pure e w : exists v, get_system_status e w = (Ok v, w).
Proof. unfold get_system_status. unfold_m. eexists. reflexivity. Qed.

Lemma get_orchestrator_status_pure e w :
  exists v, get_orchestrator_status e w = (Ok v, w).
Proof.
  unfold get_orchestrator_status. unfold_m.
  destruct (n8n_up e); eexists; reflexivity.
Qed.

Lemma get_backup_status_pure ts w :
  exists v, get_backup_status ts w = (Ok v, w).
Proof. unfold get_backup_status. unfold_m. eexists. reflexivity. Qed.

Lemma get_incidents_pure w : exists v, get_incidents w = (Ok v, w).
Proof. unfold get_incidents. unfold_m. eexists. reflexivity. Qed.

Lemma get_health_pure w : exists v, get_health w = (Ok v, w).
Proof. unfold get_health. unfold_m. eexists. reflexivity. Qed.

(** *** What [build_evidence_pack] leaves behind *)

Lemma build_evidence_pack_cases e w :
  (exists r entries,
     build_evidence_pack e w =
       (Ok r,
        set_fs (<[zip_path_of (pack_name w) :=
                    File (zip_size e) (BZip entries)]> (fs w)) w) /\
     getitem r "pack_id" = Ok (JStr (pack_name w)) /\
     getitem r "zip_path" = Ok (JStr (zip_path_of (pack_name w)))) \/
  (exists detail,
     build_evidence_pack e w = (Raise (HTTPException 500 detail), w)).
Proof.
  destruct (get_system_status_pure e w) as [v1 H1].
  destruct (get_orchestrator_status_pure e w) as [v2 H2].
  destruct (get_backup_status_pure (backup_epoch e) w) as [v3 H3].
  destruct (get_incidents_pure w) as [v4 H4].
  destruct (get_health_pure w) as [v5 H5].
  unfold build_evidence_pack, except_as_500, open_for_write, close_archive,
    getsize.
  unfold_m. cbn -[get_system_status get_orchestrator_status
                  get_backup_status get_incidents get_health].
  rewrite H1, H2, H3, H4, H5.
  destruct (fs w !! EVIDENCE_DIR) as [[d|s b]|]; [|right; eauto..].
  destruct (fs w !! zip_path_of (pack_name w)) as [[d'|s b]|] eqn:E;
    [right; eauto|left..].
  all: cbn; rewrite lookup_insert_eq; cbn; rewrite insert_insert_eq;
    eexists _, _; split; [reflexivity|split; reflexivity].
Qed.

Lemma build_evidence_pack_state e w :
  state (after (build_evidence_pack e) w) = state w.
Proof.
  unfold after.
  destruct (build_evidence_pack_cases e w) as [(r & en & -> & _)|[d ->]];
    reflexivity.
Qed.

(** *** Only [run_backup] writes the backup record *)

Lemma step_last_backup ev w :
  match ev with
  | RunBackup sz =>
      if is_ok (run_backup sz w).1
      then last_backup (state (step ev w)) =
             mkLastBackup (Some (now_iso w)) (Some (backup_name w)) sz
      else step ev w = w
  | _ => last_backup (state (step ev w)) = last_backup (state w)
  end.
Proof.
  destruct ev as [| o1 o2 | | o1 o2 | sz | | ts_epoch | e | scope id | dt | files];
    unfold step, after.
  - unfold simulate_fail. unfold_m. cbn.
    now destruct (workflows (state w)).
  - unfold self_heal. unfold_m. cbn. now destruct (workflows (state w)).
  - reflexivity.
  - unfold real_heal. unfold_m. cbn.
    destruct (find_pending (heap w) (incidents (state w))); cbn;
      now destruct (workflows (state w)).
  - destruct (run_backup_cases sz w) as [(r & m & ->)|[e ->]]; reflexivity.
  - now rewrite verify_backup_eq.
  - now destruct (get_backup_status_pure ts_epoch w) as [v ->].
  - now rewrite <- (build_evidence_pack_state e w).
  - destruct (load_catalog_total w) as (data & w' & Hl).
    unfold Catalog.get_scope_kpis, lift. unfold_m. rewrite Hl.
    assert (state w' = state w) as <-.
    { destruct (load_catalog_world _ _ _ Hl) as [->|[_ ->]]; reflexivity. }
    destruct (negb (truthy data)); reflexivity.
  - reflexivity.
  - reflexivity.
Qed.

Lemma backups_tracked evs w :
  file_truthy (lb_file (last_backup (state (run evs w)))) =
  file_truthy (lb_file (last_backup (state w)))
  || negb (Nat.eqb (backups_created evs w) 0).
Proof.
  revert w. induction evs as [|ev evs IH]; intros w.
  - cbn. now rewrite orb_false_r.
  - cbn [run backups_created]. rewrite IH.
    pose proof (step_last_backup ev w) as Hs.
    destruct ev; try (rewrite Hs; reflexivity).
    destruct (is_ok (run_backup archive_size w).1).
    + rewrite Hs. cbn [lb_file]. rewrite backup_name_truthy. cbn.
      now rewrite orb_true_r.
    + now rewrite Hs.
Qed.

(** *** Claims about backups and evidence packs *)

Lemma NotFound_404 {A} detail : NotFound (@Raise A (HTTPException 404 detail)).
Proof. now exists detail. Qed.

Lemma IntegrityError_500 {A} detail :
  IntegrityError (@Raise A (HTTPException 500 detail)).
Proof. now exists detail. Qed.

(** C9. After any run of the process, [verify_backup] raises 404 exactly
    when no [run_backup] of the run produced a backup; when one did, it
    raises 500 exactly when the file the record names is missing or has
    size zero, and answers [{"ok": True}] otherwise. It changes
    nothing. *)
Theorem verify_backup_outcome files now tz evs :
  let w0 := initial_world files now tz in
  let w := run evs w0 in
  (verify_backup w).2 = w /\
  (NotFound (verify_backup w).1 <-> backups_created evs w0 = 0%nat) /\
  (backups_created evs w0 <> 0%nat ->
   exists file,
     lb_file (last_backup (state w)) = Some file /\
     (IntegrityError (verify_backup w).1 <->
      fs w !! path_join BACKUP_DIR file = None \/
      exists n, fs w !! path_join BACKUP_DIR file = Some n /\
                node_size n = 0%N) /\
     (~ IntegrityError (verify_backup w).1 ->
      (verify_backup w).1 = Ok (JDict {[ "ok" := JBool true ]}))).
Proof.
  intros w0 w. pose proof (backups_tracked evs w0) as Ht.
  fold w in Ht. cbn [w0 initial_world state initial_state last_backup
                     lb_file file_truthy orb] in Ht.
  rewrite verify_backup_eq. cbn [fst snd].
  split; [reflexivity|].
  destruct (lb_file (last_backup (state w))) as [file|]; cbn in Ht.
  - destruct (String.eqb file "") eqn:Ef; cbn in Ht.
    + split.
      * split; [intros _|intros _; apply NotFound_404].
        destruct (backups_created evs w0); [reflexivity|discriminate].
      * intros Hc. destruct (backups_created evs w0); [congruence|discriminate].
    + assert (Hc : backups_created evs w0 <> 0%nat).
      { destruct (backups_created evs w0); [discriminate|lia]. }
      split.
      * split; [|intros ?; contradiction].
        intros [detail H]. exfalso.
        destruct (fs w !! path_join BACKUP_DIR file) as [n|];
          [destruct (0 <? node_size n)%N|]; discriminate.
      * intros _. exists file. split; [reflexivity|].
        destruct (fs w !! path_join BACKUP_DIR file) as [n|].
        -- destruct (0 <? node_size n)%N eqn:Es.
           ++ apply N.ltb_lt in Es. split; [split|reflexivity].
              ** intros [detail H]. discriminate.
              ** intros [?|(n' & [= <-] & Hz)]; [discriminate|lia].
           ++ apply N.ltb_ge in Es. split; [split|].
              ** intros _. right. exists n. split; [reflexivity|lia].
              ** intros _. apply IntegrityError_500.
              ** intros Hn. exfalso. apply Hn, IntegrityError_500.
        -- split; [split|].
           ++ intros _. now left.
           ++ intros _. apply IntegrityError_500.
           ++ intros Hn. exfalso. apply Hn, IntegrityError_500.
  - split.
    + split; [intros _|intros _; apply NotFound_404].
      destruct (backups_created evs w0); [reflexivity|discriminate].
    + intros Hc. destruct (backups_created evs w0); [congruence|discriminate].
Qed.

Lemma verify_backup_outcome_witness :
  (verify_backup (run [RunBackup 120] Samples.boot)).1 =
    Ok (JDict {[ "ok" := JBool true ]}) /\
  NotFound (verify_backup Samples.boot).1.
Proof.
  split.
  - destruct (verify_backup_outcome Samples.dirs 0 0 [RunBackup 120])
      as (_ & _ & H).
    destruct H as (file & Hfile & Hint & Hok).
    + vm_compute. discriminate.
    + apply Hok. intros Hi. apply Hint in Hi.
      vm_compute in Hfile. injection Hfile as <-.
      destruct Hi as [Hi|(n & Hn & Hz)].
      * vm_compute in Hi. discriminate.
      * vm_compute in Hn. injection Hn as <-. vm_compute in Hz. discriminate.
  - apply (proj1 (proj2 (verify_backup_outcome Samples.dirs 0 0 []))).
    reflexivity.
Defined.

Lemma build_evidence_pack_ok e w r w' :
  build_evidence_pack e w = (Ok r, w') ->
  getitem r "pack_id" = Ok (JStr (pack_name w)) /\
  getitem r "zip_path" = Ok (JStr (zip_path_of (pack_name w))) /\
  exists entries,
    w' = set_fs (<[zip_path_of (pack_name w) :=
                     File (zip_size e) (BZip entries)]> (fs w)) w.
Proof.
  intros H.
  destruct (build_evidence_pack_cases e w)
    as [(r0 & entries & H0 & Hid & Hpath)|[detail H0]];
    rewrite H0 in H; [|discriminate].
  injection H as <- <-. eauto.
Qed.

(** C8 (as amended). Two [build_evidence_pack] calls that read the clock
    in different whole seconds name their packs differently and write
    two files: after the second call both packs can be downloaded, and
    the first is still what the first call wrote. *)
Theorem evidence_packs_distinct_across_seconds e1 e2 w1 w2 r1 r2 w1' w2' :
  build_evidence_pack e1 w1 = (Ok r1, w1') ->
  build_evidence_pack e2 w2 = (Ok r2, w2') ->
  fs w2 !! zip_path_of (pack_name w1) = fs w1' !! zip_path_of (pack_name w1) ->
  int_time w1 <> int_time w2 ->
  getitem r1 "pack_id" = Ok (JStr (pack_name w1)) /\
  getitem r2 "pack_id" = Ok (JStr (pack_name w2)) /\
  pack_name w1 <> pack_name w2 /\
  exists n1 n2,
    download_evidence (pack_name w1) w1' = (Ok n1, w1') /\
    download_evidence (pack_name w1) w2' = (Ok n1, w2') /\
    download_evidence (pack_name w2) w2' = (Ok n2, w2').
Proof.
  intros H1 H2 Hkeep Hsec.
  destruct (build_evidence_pack_ok _ _ _ _ H1) as (Hid1 & _ & en1 & ->).
  destruct (build_evidence_pack_ok _ _ _ _ H2) as (Hid2 & _ & en2 & ->).
  assert (Hne : pack_name w1 <> pack_name w2).
  { intros E. now apply pack_name_inj in E. }
  assert (Hpath : zip_path_of (pack_name w2) <> zip_path_of (pack_name w1)).
  { intros E. apply zip_path_of_inj, str_inj in E. congruence. }
  repeat split; try assumption.
  eexists _, _. unfold download_evidence. cbn [fs set_fs] in *.
  rewrite lookup_insert_eq. rewrite lookup_insert_ne by exact Hpath.
  rewrite Hkeep, !lookup_insert_eq. repeat split.
Qed.

Lemma evidence_packs_distinct_across_seconds_witness :
  let w1 := after (build_evidence_pack Samples.env1) Samples.boot in
  let w2 := step (Tick 2500000) w1 in
  let w3 := after (build_evidence_pack Samples.env2) w2 in
  pack_name Samples.boot = "evidence_0" /\ pack_name w2 = "evidence_2" /\
  exists n1 n2,
    download_evidence "evidence_0" w3 = (Ok n1, w3) /\
    download_evidence "evidence_2" w3 = (Ok n2, w3).
Proof.
  intros w1 w2 w3.
  assert (Hp1 : pack_name Samples.boot = "evidence_0") by reflexivity.
  assert (Hp2 : pack_name w2 = "evidence_2") by (vm_compute; reflexivity).
  destruct (evidence_packs_distinct_across_seconds Samples.env1 Samples.env2
              Samples.boot w2
              (answer (build_evidence_pack Samples.env1 Samples.boot).1)
              (answer (build_evidence_pack Samples.env2 w2).1) w1 w3)
    as (_ & _ & _ & n1 & n2 & _ & Hd1 & Hd2).
  - vm_compute. reflexivity.
  - vm_compute. reflexivity.
  - reflexivity.
  - vm_compute. discriminate.
  - rewrite Hp1 in Hd1. rewrite Hp2 in Hd2.
    split; [exact Hp1|]. split; [exact Hp2|].
    exists n1, n2. split; assumption.
Defined.

(** C8, counterexample. Two calls 0.4 seconds apart, in the same whole
    second, answer with the same pack id, and the second call replaces
    the file the first one wrote. *)
Lemma evidence_packs_collide_within_a_second :
  let w1 := after (build_evidence_pack Samples.env1) Samples.boot in
  let w2 := step (Tick 400000) w1 in
  let w3 := after (build_evidence_pack Samples.env2) w2 in
  getitem (answer (build_evidence_pack Samples.env1 Samples.boot).1) "pack_id"
    = Ok (JStr "evidence_0") /\
  getitem (answer (build_evidence_pack Samples.env2 w2).1) "pack_id"
    = Ok (JStr "evidence_0") /\
  node_size <$> (fs w1 !! zip_path_of "evidence_0") = Some 900%N /\
  node_size <$> (fs w3 !! zip_path_of "evidence_0") = Some 1200%N /\
  (download_evidence "evidence_0" w3).1 <> (download_evidence "evidence_0" w1).1 /\
  size (filter (fun kv => kv.1 <> EVIDENCE_DIR /\ kv.1 <> BACKUP_DIR) (fs w3)) = 1%nat.
Proof. vm_compute. repeat split; try reflexivity. discriminate. Qed.

End ArtifactFacts.

(** ** States the process can reach *)

Module ProcessFacts.
Import Clock Ops Backup Evidence Process CatalogFacts OpsFacts ArtifactFacts.

Lemma step_keeps_log ev w :
  keeps_log ev = true ->
  incidents (state (step ev w)) = incidents (state w) /\
  heap (step ev w) = heap w.
Proof.
  destruct ev as [| o1 o2 | | o1 o2 | sz | | ts_epoch | e | scope id | dt | files];
    try discriminate; intros _; unfold step, after.
  - unfold simulate_fail. unfold_m. cbn.
    now destruct (workflows (state w)).
  - destruct (run_backup_cases sz w) as [(r & m & ->)|[e ->]]; now split.
  - now rewrite verify_backup_eq.
  - now destruct (get_backup_status_pure ts_epoch w) as [v ->].
  - destruct (build_evidence_pack_cases e w) as [(r & en & -> & _)|[d ->]];
      now split.
  - destruct (load_catalog_total w) as (data & w' & Hl).
    unfold Catalog.get_scope_kpis, lift. unfold_m. rewrite Hl.
    assert (state w' = state w /\ heap w' = heap w) as [<- <-].
    { destruct (load_catalog_world _ _ _ Hl) as [->|[_ ->]]; now split. }
    destruct (negb (truthy data)); now split.
  - now split.
  - now split.
Qed.

Lemma step_workflows ev w :
  length (workflows (state (step ev w))) = length (workflows (state w)).
Proof.
  destruct ev as [| o1 o2 | | o1 o2 | sz | | ts_epoch | e | scope id | dt | files];
    unfold step, after.
  - unfold simulate_fail. unfold_m. cbn.
    destruct (workflows (state w)) eqn:E; cbn; rewrite ?E; reflexivity.
  - unfold self_heal. unfold_m. cbn.
    destruct (workflows (state w)) eqn:E; cbn; rewrite ?E; reflexivity.
  - reflexivity.
  - unfold real_heal. unfold_m. cbn.
    destruct (find_pending (heap w) (incidents (state w))); cbn;
      destruct (workflows (state w)) eqn:E; cbn; rewrite ?E; reflexivity.
  - destruct (run_backup_cases sz w) as [(r & m & ->)|[e ->]]; reflexivity.
  - now rewrite verify_backup_eq.
  - now destruct (get_backup_status_pure ts_epoch w) as [v ->].
  - fold (after (build_evidence_pack e) w).
    now rewrite build_evidence_pack_state.
  - destruct (load_catalog_total w) as (data & w' & Hl).
    unfold Catalog.get_scope_kpis, lift. unfold_m. rewrite Hl.
    assert (state w' = state w) as <-.
    { destruct (load_catalog_world _ _ _ Hl) as [->|[_ ->]]; reflexivity. }
    destruct (negb (truthy data)); reflexivity.
  - reflexivity.
  - reflexivity.
Qed.

Lemma step_heap_ok ev w : heap_ok w -> heap_ok (step ev w).
Proof.
  intros Hok. destruct (keeps_log ev) eqn:E.
  - destruct (step_keeps_log ev w E) as [Hi Hh].
    unfold heap_ok. now rewrite Hi, Hh.
  - destruct ev; try discriminate; unfold step, after.
    + now apply heap_ok_self_heal.
    + now apply heap_ok_real_fail.
    + now apply heap_ok_real_heal.
Qed.

(** Every reachable world has the four workflows of the initial state
    and a well-formed incident heap: the handlers above never meet an
    empty workflow list or a dangling reference. *)
Lemma reachable_invariant w :
  reachable w ->
  heap_ok w /\ exists wf rest, workflows (state w) = wf :: rest.
Proof.
  intros (files & now & tz & evs & ->).
  assert (H : forall evs w0,
             heap_ok w0 -> length (workflows (state w0)) = 4%nat ->
             heap_ok (run evs w0) /\
             length (workflows (state (run evs w0))) = 4%nat).
  { clear. induction evs as [|ev evs IH]; intros w0 Hok Hlen; [now split|].
    cbn [run]. apply IH; [now apply step_heap_ok|].
    now rewrite step_workflows. }
  destruct (H evs (initial_world files now tz) (heap_ok_initial _ _ _) eq_refl)
    as [Hok Hlen].
  split; [exact Hok|].
  destruct (workflows (state (run evs (initial_world files now tz))))
    as [|wf rest]; [discriminate|eauto].
Qed.

End ProcessFacts.

(** ** More on the catalog: listings, cache and malformed files *)

Module CatalogMore.
Import Catalog Schema Listing Views CatalogFacts.

Lemma summary_of_faculty f : summary_of (enc_faculty f) = Ok (faculty_summary f).
Proof.
  unfold summary_of. rewrite faculty_id. cbn -[getitem enc_faculty].
  rewrite faculty_name. cbn -[getitem enc_faculty].
  rewrite faculty_kpis. reflexivity.
Qed.

Lemma summary_of_department d :
  summary_of (enc_department d) = Ok (department_summary d).
Proof.
  unfold summary_of. rewrite department_id. cbn -[getitem enc_department].
  rewrite department_name. cbn -[getitem enc_department].
  rewrite department_kpis. reflexivity.
Qed.

Lemma summaries_faculties fs :
  summaries (enc_faculty <$> fs) = Ok (faculty_summary <$> fs).
Proof.
  induction fs as [|f fs IH]; [reflexivity|].
  rewrite !fmap_cons. cbn [summaries]. rewrite summary_of_faculty, IH.
  reflexivity.
Qed.

Lemma summaries_departments ds :
  summaries (enc_department <$> ds) = Ok (department_summary <$> ds).
Proof.
  induction ds as [|d ds IH]; [reflexivity|].
  rewrite !fmap_cons. cbn [summaries]. rewrite summary_of_department, IH.
  reflexivity.
Qed.

Lemma catalog_get_faculties c :
  get (enc_catalog c) "faculties" (JList []) =
  Ok (JList (enc_faculty <$> faculties c)).
Proof. reflexivity. Qed.

Lemma handler_loaded {A} (k_fallback : M A) (k : json -> res A) w data w' :
  load_catalog w = (Ok data, w') ->
  (data ← load_catalog;
   if negb (truthy data) then k_fallback else lift (k data)) w =
  if truthy data then (k data, w') else k_fallback w'.
Proof.
  intros Hl. unfold mbind, M_bind. rewrite Hl.
  now destruct (truthy data).
Qed.

(** X1. With a catalog of the documented shape loaded, [get_faculties]
    answers with the id, name and kpis of every faculty, in catalog
    order and without departments or levers; with no catalog it answers
    with the single fallback faculty. It never raises on such input. *)
Theorem get_faculties_lists_all w w' :
  (forall c, load_catalog w = (Ok (enc_catalog c), w') ->
     get_faculties w = (Ok (JList (faculty_summary <$> faculties c)), w')) /\
  (forall data, load_catalog w = (Ok data, w') -> truthy data = false ->
     get_faculties w = (Ok fallback_faculties, w')).
Proof.
  split.
  - intros c Hl. unfold get_faculties.
    rewrite (handler_loaded _ _ _ _ _ Hl). rewrite catalog_truthy.
    f_equal. rewrite catalog_get_faculties. cbn -[summaries fmap].
    now rewrite summaries_faculties.
  - intros data Hl Ht. unfold get_faculties.
    rewrite (handler_loaded _ _ _ _ _ Hl). now rewrite Ht.
Qed.

Lemma get_faculties_lists_all_witness :
  (exists l, (get_faculties Samples.with_catalog).1 = Ok (JList l) /\
             length l = 3%nat) /\
  (get_faculties Samples.boot).1 = Ok fallback_faculties.
Proof.
  destruct (get_faculties_lists_all Samples.with_catalog Samples.with_catalog)
    as [H1 _].
  destruct (get_faculties_lists_all Samples.boot Samples.boot) as [_ H2].
  split.
  - eexists. rewrite (H1 Samples.catalog eq_refl). split; reflexivity.
  - now rewrite (H2 JNull eq_refl eq_refl).
Defined.

(** X2. With a catalog of the documented shape loaded,
    [get_departments(F)] lists the departments of the first faculty whose
    id is [F], in that faculty's order; an unknown faculty gives the
    empty list, never an error. *)
Theorem get_departments_of_first_faculty c F w w' :
  load_catalog w = (Ok (enc_catalog c), w') ->
  get_departments F w =
    (Ok (JList match first_faculty F c with
               | Some f => department_summary <$> departments_of f
               | None => []
               end), w').
Proof.
  intros Hl. unfold get_departments.
  rewrite (handler_loaded _ _ _ _ _ Hl). rewrite catalog_truthy.
  f_equal. rewrite catalog_faculties. cbn -[truthy summaries get fmap].
  rewrite next_faculty. cbn -[truthy summaries get fmap].
  fold (first_faculty F c).
  destruct (first_faculty F c) as [f|];
    cbn -[truthy summaries get enc_faculty fmap]; [|reflexivity].
  rewrite faculty_truthy. cbn -[summaries get enc_faculty fmap].
  rewrite faculty_departments. cbn -[summaries fmap].
  now rewrite summaries_departments.
Qed.

Lemma get_departments_of_first_faculty_witness :
  (get_departments "fine_arts" Samples.with_catalog).1 =
    Ok (JList [department_summary Samples.design;
               department_summary Samples.arch_a]) /\
  (get_departments "nowhere" Samples.with_catalog).1 = Ok (JList []).
Proof.
  split.
  - now rewrite (get_departments_of_first_faculty Samples.catalog "fine_arts"
                   Samples.with_catalog Samples.with_catalog eq_refl).
  - now rewrite (get_departments_of_first_faculty Samples.catalog "nowhere"
                   Samples.with_catalog Samples.with_catalog eq_refl).
Defined.

(** X3. Every department listed by [get_departments] can be resolved:
    [get_scope_kpis("department", id)] with its id answers with a
    department of that id and does not raise. *)
Theorem listed_departments_resolve c F f d w w' :
  load_catalog w = (Ok (enc_catalog c), w') ->
  first_faculty F c = Some f ->
  d ∈ departments_of f ->
  exists d',
    d_id d' = d_id d /\
    get_scope_kpis "department" (Some (d_id d)) w =
      (Ok (node_response "department" (d_name d') (d_kpis d') (d_levers d')), w').
Proof.
  intros Hl Hf Hd.
  rewrite (get_scope_kpis_loaded _ _ _ _ _ Hl (catalog_truthy c)).
  rewrite scope_department_loaded.
  destruct (first_department (d_id d) c) as [d'|] eqn:E.
  - exists d'. split; [|reflexivity].
    apply find_first in E as (_ & _ & _ & Hp & _).
    now apply String.eqb_eq in Hp.
  - exfalso. pose proof (proj1 (find_none_iff _ _) E d) as Hnone.
    assert (Hin : d ∈ all_departments c).
    { apply elem_of_all_departments. exists f. split; [|exact Hd].
      apply find_first in Hf as (before & after & -> & _).
      apply elem_of_app. right. apply list_elem_of_here. }
    specialize (Hnone Hin). unfold has_id in Hnone.
    now rewrite String.eqb_refl in Hnone.
Qed.

Lemma listed_departments_resolve_witness :
  exists d',
    (get_scope_kpis "department" (Some "design") Samples.with_catalog).1 =
      Ok (node_response "department" (d_name d') (d_kpis d') (d_levers d')).
Proof.
  destruct (listed_departments_resolve Samples.catalog "fine_arts"
              (mkFaculty "fine_arts" "Fine Arts" ∅ None
                 (Some [Samples.design; Samples.arch_a]))
              Samples.design Samples.with_catalog Samples.with_catalog)
    as (d' & _ & H).
  - reflexivity.
  - reflexivity.
  - apply list_elem_of_here.
  - exists d'. exact (f_equal fst H).
Defined.

(** X4. With a catalog of the documented shape loaded,
    [get_scope_kpis("faculty", X)] answers with the name, kpis and levers
    (an empty list when the faculty has none) of the first faculty whose
    id is [X], and raises 404 exactly when there is none. *)
Theorem resolve_faculty_first_match c X w w' :
  load_catalog w = (Ok (enc_catalog c), w') ->
  get_scope_kpis "faculty" (Some X) w =
    (match first_faculty X c with
     | Some f => Ok (node_response "faculty" (f_name f) (f_kpis f) (f_levers f))
     | None => Raise (HTTPException 404 "Faculty not found")
     end, w') /\
  (NotFound (get_scope_kpis "faculty" (Some X) w).1 <->
   forall f, f ∈ faculties c -> f_id f <> X).
Proof.
  intros Hl.
  rewrite (get_scope_kpis_loaded _ _ _ _ _ Hl (catalog_truthy c)).
  rewrite scope_faculty_loaded. split; [reflexivity|]. cbn [fst].
  destruct (first_faculty X c) as [f|] eqn:E.
  - split; [intros [detail H]; discriminate|].
    intros Hnone. exfalso.
    apply find_first in E as (before & after & Hall & Hp & _).
    apply (Hnone f).
    + rewrite Hall. apply elem_of_app. right. apply list_elem_of_here.
    + now apply String.eqb_eq in Hp.
  - split; [|intros _; eexists; reflexivity].
    intros _ f Hf. apply has_id_false.
    now apply (proj1 (find_none_iff _ _) E).
Qed.

Lemma resolve_faculty_first_match_witness :
  (get_scope_kpis "faculty" (Some "engineering") Samples.with_catalog).1 =
    Ok (node_response "faculty" "Engineering" ∅ None).
Proof.
  destruct (resolve_faculty_first_match Samples.catalog "engineering"
              Samples.with_catalog Samples.with_catalog eq_refl) as [H _].
  now rewrite H.
Defined.

(** X5. With a catalog of the documented shape loaded, the campus scope
    answers with the campus node's kpis and levers under the fixed name
    "Campus Overview", whatever name the catalog gives the campus and
    whatever [id] is passed. *)
Theorem resolve_campus_loaded c id w w' :
  load_catalog w = (Ok (enc_catalog c), w') ->
  get_scope_kpis "campus" id w =
    (Ok (node_response "campus" "Campus Overview" (c_kpis (campus c))
           (c_levers (campus c))), w').
Proof.
  intros Hl.
  rewrite (get_scope_kpis_loaded _ _ _ _ _ Hl (catalog_truthy c)).
  f_equal. destruct c as [[n k [l|]] fs]; reflexivity.
Qed.

Lemma resolve_campus_loaded_witness :
  (get_scope_kpis "campus" (Some "ignored") Samples.with_catalog).1 =
    Ok (node_response "campus" "Campus Overview" {[ "co2e_t" := JInt 18450 ]} None).
Proof.
  now rewrite (resolve_campus_loaded Samples.catalog (Some "ignored")
                 Samples.with_catalog Samples.with_catalog eq_refl).
Defined.

(** X6. The catalog is read once: after a load that gave a catalog, every
    later scope query answers from the cache, whatever happens to the
    files (deleted, replaced, corrupted). A load that gave nothing is not
    remembered: once a readable catalog file is there, the next call
    loads it. *)
Theorem catalog_cache_outlives_file w data w' :
  load_catalog w = (Ok data, w') -> truthy data = true ->
  (forall files scope id,
     get_scope_kpis scope id (set_fs files w') =
       ((get_scope_kpis scope id w').1, set_fs files w')) /\
  (forall files, load_catalog (set_fs files w') = (Ok data, set_fs files w')).
Proof.
  intros Hl Ht.
  assert (Hc : catalog_cache w' = data).
  { unfold load_catalog in Hl. destruct (truthy (catalog_cache w)) eqn:E.
    - now injection Hl as <- <-.
    - destruct (fs w !! CATALOG_PATH) as [n|];
        [destruct (json_load n)|]; injection Hl as <- <-;
        try reflexivity; discriminate. }
  assert (Hload : forall files,
            load_catalog (set_fs files w') = (Ok data, set_fs files w')).
  { intros files. rewrite load_catalog_cached; cbn [catalog_cache set_fs];
      now rewrite Hc. }
  split; [|exact Hload].
  intros files scope id.
  rewrite (get_scope_kpis_loaded _ _ _ _ _ (Hload files) Ht).
  assert (Hl' : load_catalog w' = (Ok data, w')).
  { rewrite load_catalog_cached; now rewrite Hc. }
  now rewrite (get_scope_kpis_loaded _ _ _ _ _ Hl' Ht).
Qed.

Lemma catalog_cache_outlives_file_witness :
  (get_scope_kpis "faculty" (Some "law") (set_fs ∅ Samples.with_catalog)).1 =
    Ok (node_response "faculty" "Law" ∅ None).
Proof.
  destruct (catalog_cache_outlives_file Samples.with_catalog
              (enc_catalog Samples.catalog) Samples.with_catalog eq_refl eq_refl)
    as [H _].
  rewrite H. vm_compute. reflexivity.
Defined.

Lemma load_catalog_from_disk w sz v :
  truthy (catalog_cache w) = false ->
  fs w !! CATALOG_PATH = Some (File sz (BJson v)) ->
  load_catalog w = (Ok v, set_catalog_cache v w).
Proof. intros Hc Hf. unfold load_catalog. now rewrite Hc, Hf. Qed.

Lemma load_catalog_no_file w :
  truthy (catalog_cache w) = false -> fs w !! CATALOG_PATH = None ->
  load_catalog w = (Ok JNull, w).
Proof. intros Hc Hf. unfold load_catalog. now rewrite Hc, Hf. Qed.

(** X7. The fallback is not remembered: a query made while there is no
    catalog file answers with the fallback and leaves the world as it
    was, and as soon as a catalog file is there the next query answers
    from it and keeps it in the cache. *)
Theorem fallback_is_not_cached scope id w :
  truthy (catalog_cache w) = false -> fs w !! CATALOG_PATH = None ->
  get_scope_kpis scope id w = (Ok fallback_scope, w) /\
  (forall sz c,
     let w2 := set_fs (<[CATALOG_PATH := File sz (BJson (enc_catalog c))]> (fs w)) w in
     get_scope_kpis "campus" id w2 =
       (Ok (node_response "campus" "Campus Overview" (c_kpis (campus c))
              (c_levers (campus c))),
        set_catalog_cache (enc_catalog c) w2)).
Proof.
  intros Hc Hf. split.
  - apply (get_scope_kpis_fallback _ _ _ JNull); [|reflexivity].
    now apply load_catalog_no_file.
  - intros sz c w2.
    assert (Hl : load_catalog w2 =
                 (Ok (enc_catalog c), set_catalog_cache (enc_catalog c) w2)).
    { apply (load_catalog_from_disk _ sz); [exact Hc|].
      unfold w2. cbn [fs set_fs]. apply lookup_insert_eq. }
    rewrite (get_scope_kpis_loaded _ _ _ _ _ Hl (catalog_truthy c)).
    f_equal. destruct c as [[n k [l|]] fs0]; reflexivity.
Qed.

Lemma fallback_is_not_cached_witness :
  (get_scope_kpis "campus" None Samples.boot).1 = Ok fallback_scope /\
  (get_scope_kpis "campus" None
     (set_fs (<[CATALOG_PATH := File 512 (BJson (enc_catalog Samples.catalog))]>
                (fs Samples.boot)) Samples.boot)).1 =
    Ok (node_response "campus" "Campus Overview" {[ "co2e_t" := JInt 18450 ]} None).
Proof.
  destruct (fallback_is_not_cached "campus" None Samples.boot) as [H1 H2].
  - reflexivity.
  - vm_compute. reflexivity.
  - split; [now rewrite H1|].
    exact (f_equal fst (H2 512%N Samples.catalog)).
Defined.

(** X8. A scope query writes nothing but the catalog cache, and that only
    when the cache was empty: operational state, incident objects, files
    and clock are as before, whether the query answers or raises. *)
Theorem get_scope_kpis_reads_only scope id w :
  let w' := (get_scope_kpis scope id w).2 in
  state w' = state w /\ heap w' = heap w /\ fs w' = fs w /\
  clock w' = clock w /\ utc_offset w' = utc_offset w /\
  (truthy (catalog_cache w) = true -> w' = w).
Proof.
  destruct (load_catalog_total w) as (data & w1 & Hl).
  assert (Hw : (get_scope_kpis scope id w).2 = w1).
  { unfold get_scope_kpis, mbind, M_bind, lift. rewrite Hl.
    now destruct (negb (truthy data)). }
  cbn zeta. rewrite Hw.
  destruct (load_catalog_world _ _ _ Hl) as [->|[Hc ->]].
  - repeat split; reflexivity.
  - repeat split; try reflexivity. congruence.
Qed.

(** X9. The faculty lookup stops at the first match: entries after it are
    never inspected, so they may lack an id, while a dictionary without
    an id before the match raises KeyError. *)
Theorem faculty_scan_is_lazy (before after : list json) (f : json) (X : string) :
  (forall g, g ∈ before ->
     exists Y, getitem g "id" = Ok (JStr Y) /\ Y <> X) ->
  getitem f "id" = Ok (JStr X) ->
  next_with_id (before ++ f :: after)%list (Some X) = Ok f /\
  (forall d : gmap string json, d !! "id" = None ->
     next_with_id (before ++ JDict d :: f :: after)%list (Some X) =
       Raise (KeyError "id")).
Proof.
  intros Hb Hf. induction before as [|g before IH].
  - split.
    + cbn [app next_with_id]. rewrite Hf. cbn. now rewrite String.eqb_refl.
    + intros d Hd. cbn [app next_with_id getitem]. now rewrite Hd.
  - destruct (Hb g (list_elem_of_here _ _)) as (Y & Hg & Hne).
    destruct IH as [IH1 IH2].
    { intros g' Hg'. apply Hb. now apply list_elem_of_further. }
    apply String.eqb_neq in Hne.
    split.
    + change ((g :: before) ++ f :: after)%list
        with (g :: (before ++ f :: after))%list.
      cbn [next_with_id]. rewrite Hg. cbn. now rewrite Hne.
    + intros d Hd.
      change ((g :: before) ++ JDict d :: f :: after)%list
        with (g :: (before ++ JDict d :: f :: after))%list.
      cbn [next_with_id]. rewrite Hg. cbn. rewrite Hne. now apply IH2.
Qed.

Lemma faculty_scan_is_lazy_witness :
  next_with_id [JDict {[ "id" := JStr "a" ]}; JDict {[ "id" := JStr "b" ]};
                JInt 7] (Some "b") = Ok (JDict {[ "id" := JStr "b" ]}).
Proof.
  destruct (faculty_scan_is_lazy [JDict {[ "id" := JStr "a" ]}] [JInt 7]
              (JDict {[ "id" := JStr "b" ]}) "b") as [H _].
  - intros g Hg. apply list_elem_of_singleton in Hg as ->.
    exists "a". split; [vm_compute; reflexivity | discriminate].
  - vm_compute. reflexivity.
  - exact H.
Defined.

(** X10. A loaded catalog file without a "faculties" entry is treated
    differently by the handlers: the faculty listing reads it as having no
    faculties, while the department listing and the faculty and
    department scopes raise KeyError. *)
Theorem catalog_without_faculties (d : gmap string json) F id w w' :
  load_catalog w = (Ok (JDict d), w') -> d <> ∅ -> d !! "faculties" = None ->
  get_faculties w = (Ok (JList []), w') /\
  get_departments F w = (Raise (KeyError "faculties"), w') /\
  get_scope_kpis "faculty" id w = (Raise (KeyError "faculties"), w') /\
  get_scope_kpis "department" id w = (Raise (KeyError "faculties"), w').
Proof.
  intros Hl Hne Hk.
  assert (Ht : truthy (JDict d) = true).
  { cbn. now rewrite bool_decide_eq_false_2. }
  repeat split.
  - unfold get_faculties. rewrite (handler_loaded _ _ _ _ _ Hl), Ht.
    cbn. now rewrite Hk.
  - unfold get_departments. rewrite (handler_loaded _ _ _ _ _ Hl), Ht.
    cbn. now rewrite Hk.
  - rewrite (get_scope_kpis_loaded _ _ _ _ _ Hl Ht).
    unfold scope_of_data. cbn. now rewrite Hk.
  - rewrite (get_scope_kpis_loaded _ _ _ _ _ Hl Ht).
    unfold scope_of_data. cbn. now rewrite Hk.
Qed.

Lemma catalog_without_faculties_witness :
  let w := set_catalog_cache (JDict {[ "campus" := JDict ∅ ]}) Samples.boot in
  (get_faculties w).1 = Ok (JList []) /\
  (get_departments "law" w).1 = Raise (KeyError "faculties").
Proof.
  intros w.
  destruct (catalog_without_faculties {[ "campus" := JDict ∅ ]} "law" None w w)
    as (H1 & H2 & _).
  - apply load_catalog_cached. vm_compute. reflexivity.
  - intros E. apply (f_equal (fun m => m !! "campus")) in E.
    vm_compute in E. discriminate.
  - vm_compute. reflexivity.
  - split; [exact (f_equal fst H1) | exact (f_equal fst H2)].
Defined.

End CatalogMore.

(** ** The header of the GRI export against the scope resolver *)

Module GriFacts.
Import Catalog Schema GriExport Views CatalogFacts.

Lemma subtitle_loaded scope id w data w' :
  load_catalog w = (Ok data, w') -> truthy data = true ->
  gri_scope_subtitle scope id w =
  (if String.eqb scope "faculty" then
     fl ← getitem data "faculties";
     it ← py_iter fl;
     f ← next_with_id it id;
     if truthy f then name ← getitem f "name"; Ok (FacultyOf name)
     else Ok CampusOverview
   else if String.eqb scope "department" then
     fl ← getitem data "faculties";
     it ← py_iter fl;
     d ← search_departments it id;
     if truthy d then name ← getitem d "name"; Ok (DepartmentOf name)
     else Ok CampusOverview
   else Ok CampusOverview, w').
Proof.
  intros Hl Ht. unfold gri_scope_subtitle, mbind at 1, M_bind, lift.
  rewrite Hl, Ht.
  destruct (String.eqb scope "faculty"); [reflexivity|].
  destruct (String.eqb scope "department"); reflexivity.
Qed.

Lemma getitem_plain v k e : getitem v k = Raise e -> is_http e = false.
Proof.
  destruct v; cbn; try (intros [= <-]; reflexivity).
  destruct (d !! k); [discriminate|]. intros [= <-]. reflexivity.
Qed.

Lemma get_plain v k dflt e : get v k dflt = Raise e -> is_http e = false.
Proof. destruct v; cbn; try discriminate; intros [= <-]; reflexivity. Qed.

Lemma py_iter_plain v e : py_iter v = Raise e -> is_http e = false.
Proof. destruct v; cbn; try discriminate; intros [= <-]; reflexivity. Qed.

Lemma next_with_id_plain it id e :
  next_with_id it id = Raise e -> is_http e = false.
Proof.
  induction it as [|f it IH]; cbn -[getitem]; [discriminate|].
  destruct (getitem f "id") as [x|e'] eqn:E; cbn -[getitem].
  - destruct (eq_id x id); [discriminate | exact IH].
  - intros [= <-]. now apply getitem_plain in E.
Qed.

Lemma search_departments_plain it id e :
  search_departments it id = Raise e -> is_http e = false.
Proof.
  induction it as [|f it IH]; cbn -[get truthy]; [discriminate|].
  destruct (get f "departments" (JList [])) as [ds|e'] eqn:E1; cbn -[get truthy];
    [|intros [= <-]; now apply get_plain in E1].
  destruct (py_iter ds) as [it'|e'] eqn:E2; cbn -[get truthy];
    [|intros [= <-]; now apply py_iter_plain in E2].
  destruct (next_with_id it' id) as [d|e'] eqn:E3; cbn -[get truthy];
    [|intros [= <-]; now apply next_with_id_plain in E3].
  destruct (truthy d); [discriminate | exact IH].
Qed.

(** How an answer or a 404 of the two id scopes comes about. *)
Lemma scope_by_id_inv (search : list json -> option string -> res json)
    (label msg : string) data id :
  (forall it e, search it id = Raise e -> is_http e = false) ->
  match (fl ← getitem data "faculties";
         it ← py_iter fl;
         n ← search it id;
         if negb (truthy n) then Raise (HTTPException 404 msg)
         else
           name ← getitem n "name";
           kpis ← getitem n "kpis";
           levers ← get n "levers" (JList []);
           Ok (JDict {[ "scope" := JStr label; "name" := name;
                        "kpis" := kpis; "levers" := levers ]})) with
  | Ok r =>
      exists fl it n name,
        getitem data "faculties" = Ok fl /\ py_iter fl = Ok it /\
        search it id = Ok n /\ truthy n = true /\
        getitem n "name" = Ok name /\ getitem r "name" = Ok name
  | Raise e =>
      is_http e = true ->
      exists fl it n,
        getitem data "faculties" = Ok fl /\ py_iter fl = Ok it /\
        search it id = Ok n /\ truthy n = false
  end.
Proof.
  intros Hsearch.
  destruct (getitem data "faculties") as [fl|e] eqn:E1; cbn -[get getitem truthy];
    [|intros H; apply getitem_plain in E1; congruence].
  destruct (py_iter fl) as [it|e] eqn:E2; cbn -[get getitem truthy];
    [|intros H; apply py_iter_plain in E2; congruence].
  destruct (search it id) as [n|e] eqn:E3; cbn -[get getitem truthy];
    [|intros H; apply Hsearch in E3; congruence].
  destruct (truthy n) eqn:E4; cbn -[get getitem truthy];
    [|intros _; eauto 10].
  destruct (getitem n "name") as [name|e] eqn:E5; cbn -[get getitem truthy];
    [|intros H; apply getitem_plain in E5; congruence].
  destruct (getitem n "kpis") as [kpis|e] eqn:E6; cbn -[get getitem truthy];
    [|intros H; apply getitem_plain in E6; congruence].
  destruct (get n "levers" (JList [])) as [levers|e] eqn:E7;
    cbn -[get getitem truthy];
    [|intros H; apply get_plain in E7; congruence].
  exists fl, it, n, name. repeat split; assumption.
Qed.

(** X11. The export header follows the scope resolver where that one
    answers and falls back where it raises 404: when
    [get_scope_kpis("faculty" or "department", id)] answers over a loaded
    catalog, the header names the same node; when it raises 404, the
    export does not fail but is headed "Campus Overview". *)
Theorem gri_header_follows_resolver id w data w' :
  load_catalog w = (Ok data, w') -> truthy data = true ->
  (forall r, (get_scope_kpis "faculty" id w).1 = Ok r ->
     exists name, getitem r "name" = Ok name /\
       gri_scope_subtitle "faculty" id w = (Ok (FacultyOf name), w')) /\
  (forall r, (get_scope_kpis "department" id w).1 = Ok r ->
     exists name, getitem r "name" = Ok name /\
       gri_scope_subtitle "department" id w = (Ok (DepartmentOf name), w')) /\
  (NotFound (get_scope_kpis "faculty" id w).1 ->
     gri_scope_subtitle "faculty" id w = (Ok CampusOverview, w')) /\
  (NotFound (get_scope_kpis "department" id w).1 ->
     gri_scope_subtitle "department" id w = (Ok CampusOverview, w')).
Proof.
  intros Hl Ht.
  rewrite !(get_scope_kpis_loaded _ _ _ _ _ Hl Ht).
  rewrite !(subtitle_loaded _ _ _ _ _ Hl Ht).
  unfold scope_of_data. cbn [String.eqb Ascii.eqb Bool.eqb fst].
  pose proof (scope_by_id_inv next_with_id "faculty" "Faculty not found"
                data id (fun it => next_with_id_plain it id)) as Hf.
  pose proof (scope_by_id_inv search_departments "department"
                "Department not found" data id
                (fun it => search_departments_plain it id)) as Hd.
  repeat split.
  - intros r Hr. rewrite Hr in Hf.
    destruct Hf as (fl & it & n & name & -> & E2 & E3 & E4 & E5 & E6).
    exists name. split; [exact E6|]. cbn -[truthy getitem].
    rewrite E2. cbn -[truthy getitem]. rewrite E3. cbn -[truthy getitem].
    rewrite E4, E5. reflexivity.
  - intros r Hr. rewrite Hr in Hd.
    destruct Hd as (fl & it & n & name & -> & E2 & E3 & E4 & E5 & E6).
    exists name. split; [exact E6|]. cbn -[truthy getitem].
    rewrite E2. cbn -[truthy getitem]. rewrite E3. cbn -[truthy getitem].
    rewrite E4, E5. reflexivity.
  - intros [detail Hr]. rewrite Hr in Hf.
    destruct (Hf eq_refl) as (fl & it & n & -> & E2 & E3 & E4).
    cbn -[truthy getitem]. rewrite E2. cbn -[truthy getitem].
    rewrite E3. cbn -[truthy getitem]. now rewrite E4.
  - intros [detail Hr]. rewrite Hr in Hd.
    destruct (Hd eq_refl) as (fl & it & n & -> & E2 & E3 & E4).
    cbn -[truthy getitem]. rewrite E2. cbn -[truthy getitem].
    rewrite E3. cbn -[truthy getitem]. now rewrite E4.
Qed.

Lemma gri_header_follows_resolver_witness :
  (gri_scope_subtitle "department" (Some "arch") Samples.with_catalog).1 =
    Ok (DepartmentOf (JStr "Architecture (Fine Arts)")) /\
  (gri_scope_subtitle "faculty" (Some "unknown") Samples.with_catalog).1 =
    Ok CampusOverview.
Proof.
  destruct (gri_header_follows_resolver (Some "arch") Samples.with_catalog
              (enc_catalog Samples.catalog) Samples.with_catalog eq_refl eq_refl)
    as (_ & Hd & _).
  destruct (gri_header_follows_resolver (Some "unknown") Samples.with_catalog
              (enc_catalog Samples.catalog) Samples.with_catalog eq_refl eq_refl)
    as (_ & _ & Hf & _).
  split.
  - destruct (Hd (node_response "department" "Architecture (Fine Arts)"
                    {[ "co2e_t" := JInt 120 ]} None)) as (name & Hn & Hs).
    + vm_compute. reflexivity.
    + vm_compute in Hn. injection Hn as <-. exact (f_equal fst Hs).
  - rewrite Hf; [reflexivity|]. eexists. vm_compute. reflexivity.
Defined.

End GriFacts.

(** ** More on the state machine: health, workflows and the log over runs *)

Module OpsMore.
Import Clock Ops Backup Evidence Process Views.
Import CatalogFacts OpsFacts ArtifactFacts ProcessFacts.

Lemma step_state_kept ev w :
  match ev with
  | SimulateFail | SelfHeal _ _ | RealFail | RealHeal _ _ => True
  | RunBackup sz =>
      system_status (state (step ev w)) = system_status (state w) /\
      workflows (state (step ev w)) = workflows (state w)
  | _ => state (step ev w) = state w
  end.
Proof.
  destruct ev as [| o1 o2 | | o1 o2 | sz | | ts_epoch | e | scope id | dt | files];
    try exact I; unfold step, after.
  - destruct (run_backup_cases sz w) as [(r & m & ->)|[e ->]]; now split.
  - now rewrite verify_backup_eq.
  - now destruct (get_backup_status_pure ts_epoch w) as [v ->].
  - apply build_evidence_pack_state.
  - destruct (load_catalog_total w) as (data & w' & Hl).
    unfold Catalog.get_scope_kpis, lift. unfold_m. rewrite Hl.
    assert (state w' = state w) as <-.
    { destruct (load_catalog_world _ _ _ Hl) as [->|[_ ->]]; reflexivity. }
    destruct (negb (truthy data)); reflexivity.
  - reflexivity.
  - reflexivity.
Qed.

Lemma step_system_status ev w :
  system_status (state (step ev w)) =
  match ev with
  | SimulateFail | RealFail => "DEGRADED"
  | SelfHeal _ _ | RealHeal _ _ => "OK"
  | _ => system_status (state w)
  end.
Proof.
  pose proof (step_state_kept ev w) as Hk.
  destruct ev as [| o1 o2 | | o1 o2 | sz | | ts_epoch | e | scope id | dt | files];
    try (now rewrite Hk); try (now destruct Hk); unfold step, after.
  - unfold simulate_fail. unfold_m. cbn. now destruct (workflows (state w)).
  - unfold self_heal. unfold_m. cbn. now destruct (workflows (state w)).
  - unfold real_heal. unfold_m. cbn.
    destruct (find_pending (heap w) (incidents (state w))); cbn;
      now destruct (workflows (state w)).
Qed.

(** X12. Between requests the health is OK or DEGRADED, never HEALING,
    and what a request leaves behind depends on the kind of request
    alone: DEGRADED after either fail handler, OK after either heal
    handler (also when the handler raised on the way), unchanged after
    everything else. *)
Theorem health_between_requests files now tz evs :
  let w := run evs (initial_world files now tz) in
  (system_status (state w) = "OK" \/ system_status (state w) = "DEGRADED") /\
  forall ev,
    system_status (state (step ev w)) =
    match ev with
    | SimulateFail | RealFail => "DEGRADED"
    | SelfHeal _ _ | RealHeal _ _ => "OK"
    | _ => system_status (state w)
    end.
Proof.
  cbn zeta. split; [|intros ev; apply step_system_status].
  assert (H : forall evs w0,
             (system_status (state w0) = "OK" \/
              system_status (state w0) = "DEGRADED") ->
             system_status (state (run evs w0)) = "OK" \/
             system_status (state (run evs w0)) = "DEGRADED").
  { clear. induction evs as [|ev evs IH]; intros w0 H0; [exact H0|].
    cbn [run]. apply IH. rewrite step_system_status.
    destruct ev; auto. }
  apply H. now left.
Qed.

Lemma step_workflows_frame ev w :
  workflows (state (step ev w)) =
  match workflows (state w) with
  | [] => []
  | wf :: rest =>
      match ev with
      | SimulateFail => retrying wf
      | SelfHeal _ _ | RealHeal _ _ => running wf
      | _ => wf
      end :: rest
  end.
Proof.
  pose proof (step_state_kept ev w) as Hk.
  destruct ev as [| o1 o2 | | o1 o2 | sz | | ts_epoch | e | scope id | dt | files].
  - unfold step, after, simulate_fail. unfold_m. cbn.
    destruct (workflows (state w)) eqn:E; cbn; rewrite ?E; reflexivity.
  - unfold step, after, self_heal. unfold_m. cbn.
    destruct (workflows (state w)) eqn:E; cbn; rewrite ?E; reflexivity.
  - unfold step, after. rewrite real_fail_eq. cbn.
    now destruct (workflows (state w)).
  - unfold step, after, real_heal. unfold_m. cbn.
    destruct (find_pending (heap w) (incidents (state w))); cbn;
      destruct (workflows (state w)) eqn:E; cbn; rewrite ?E; reflexivity.
  - destruct Hk as [_ Hk]. rewrite Hk. now destruct (workflows (state w)).
  - rewrite Hk. now destruct (workflows (state w)).
  - rewrite Hk. now destruct (workflows (state w)).
  - rewrite Hk. now destruct (workflows (state w)).
  - rewrite Hk. now destruct (workflows (state w)).
  - rewrite Hk. now destruct (workflows (state w)).
  - rewrite Hk. now destruct (workflows (state w)).
Qed.

(** X13. The handlers only ever rewrite the status of the first
    workflow: in every reachable state the list is the initial four
    workflows with the first one's status either "Running" or
    "Retrying...". *)
Theorem workflows_frame files now tz evs :
  exists status,
    (status = "Running" \/ status = "Retrying...") /\
    workflows (state (run evs (initial_world files now tz))) =
      [ mkWorkflow "Incident Agent" status "2m ago" "in 3m";
        mkWorkflow "Evidence Agent" "Running" "5m ago" "in 10m";
        mkWorkflow "Backup Agent" "Idle" "1h ago" "in 5h";
        mkWorkflow "Forecast Refresh" "Running" "10m ago" "in 50m" ].
Proof.
  assert (H : forall evs w0 status,
             (status = "Running" \/ status = "Retrying...") ->
             workflows (state w0) =
               mkWorkflow "Incident Agent" status "2m ago" "in 3m"
                 :: tail (workflows initial_state) ->
             exists status',
               (status' = "Running" \/ status' = "Retrying...") /\
               workflows (state (run evs w0)) =
                 mkWorkflow "Incident Agent" status' "2m ago" "in 3m"
                   :: tail (workflows initial_state)).
  { clear. induction evs as [|ev evs IH]; intros w0 status Hs Hw; [eauto|].
    cbn [run].
    pose proof (step_workflows_frame ev w0) as Hstep. rewrite Hw in Hstep.
    destruct ev; (eapply IH; [|exact Hstep]); auto. }
  apply (H evs _ "Running"); [now left | reflexivity].
Qed.

Lemma pop_over_5_length_max {A} (x : A) (log : list A) :
  (length (pop_over_5 (x :: log)) <= Nat.max 5 (length log))%nat.
Proof.
  unfold pop_over_5. destruct (5 <? _) eqn:E.
  - rewrite removelast_take, length_take. cbn [length]. lia.
  - apply Z.ltb_ge in E. cbn [length] in *. lia.
Qed.

Lemma step_incidents_length ev w :
  (length (incidents (state (step ev w))) <=
   Nat.max 5 (length (incidents (state w))) + (if is_real_heal ev then 1 else 0))%nat.
Proof.
  destruct (keeps_log ev) eqn:Ek.
  - destruct (step_keeps_log ev w Ek) as [-> _].
    destruct (is_real_heal ev); lia.
  - destruct ev; try discriminate; unfold step, after; cbn [is_real_heal].
    + assert (exists l, incidents (state (self_heal overrun1 overrun2 w).2) =
                        pop_over_5 (l :: incidents (state w))) as [l ->].
      { unfold self_heal. unfold_m. cbn.
        destruct (workflows (state w)); eexists; reflexivity. }
      pose proof (pop_over_5_length_max l (incidents (state w))). lia.
    + rewrite real_fail_eq. cbn.
      pose proof (pop_over_5_length_max (fresh (dom (heap w)))
                    (incidents (state w))). lia.
    + assert (incidents (state (real_heal overrun1 overrun2 w).2) =
                incidents (state w) \/
              exists l, incidents (state (real_heal overrun1 overrun2 w).2) =
                        l :: incidents (state w)) as [->|[l ->]].
      { unfold real_heal. unfold_m. cbn.
        destruct (find_pending (heap w) (incidents (state w))); cbn;
          destruct (workflows (state w)); eauto. }
      * lia.
      * cbn [length]. lia.
Qed.

Lemma run_heap_ok evs w : heap_ok w -> heap_ok (run evs w).
Proof.
  revert w. induction evs as [|ev evs IH]; intros w H; [exact H|].
  cbn [run]. now apply IH, step_heap_ok.
Qed.

(** X14. Over any run from a fresh start the incident log has at most
    five entries plus one for each [real_heal] request: [real_fail] and
    [self_heal] keep the cap, and only [real_heal] can exceed it. A run
    without [real_heal] never shows more than five. *)
Theorem incident_log_bound files now tz evs :
  (length (incident_log (run evs (initial_world files now tz)))
   <= 5 + real_heals evs)%nat.
Proof.
  rewrite incident_log_length by apply run_heap_ok, heap_ok_initial.
  assert (H : forall evs w n,
             (length (incidents (state w)) <= 5 + n)%nat ->
             (length (incidents (state (run evs w))) <= 5 + n + real_heals evs)%nat).
  { clear. induction evs as [|ev evs IH]; intros w n Hn.
    - cbn. lia.
    - cbn [run]. pose proof (step_incidents_length ev w) as Hs.
      unfold real_heals. cbn [List.filter].
      destruct (is_real_heal ev); cbn [length].
      + specialize (IH (step ev w) (S n)). unfold real_heals in IH. lia.
      + specialize (IH (step ev w) n). unfold real_heals in IH. lia. }
  specialize (H evs (initial_world files now tz) 0%nat). cbn in H. lia.
Qed.

Lemma pending_count_insert (log : list Incident) (i : nat) inc new :
  log !! i = Some inc -> is_pending_demo inc = true ->
  is_pending_demo new = false ->
  S (pending_count (<[i := new]> log)) = pending_count log.
Proof.
  unfold pending_count. revert i.
  induction log as [|x log IH]; intros [|i] Hi Hp Hn; try discriminate.
  - injection Hi as ->. cbn. now rewrite Hp, Hn.
  - cbn in Hi. cbn. destruct (is_pending_demo x); cbn; rewrite <- (IH i);
      auto.
Qed.

Lemma pending_count_pos (log : list Incident) :
  (0 < pending_count log)%nat ->
  exists inc, inc ∈ log /\ is_pending_demo inc = true.
Proof.
  unfold pending_count. induction log as [|x log IH]; cbn; [lia|].
  destruct (is_pending_demo x) eqn:E.
  - intros _. exists x. split; [apply list_elem_of_here | exact E].
  - intros H. destruct (IH H) as (inc & Hin & Hp).
    exists inc. split; [now apply list_elem_of_further | exact Hp].
Qed.

Lemma pending_count_zero (log : list Incident) :
  pending_count log = 0%nat ->
  forall inc, inc ∈ log -> is_pending_demo inc = false.
Proof.
  intros H inc Hin. destruct (is_pending_demo inc) eqn:E; [|reflexivity].
  exfalso. unfold pending_count in H. induction Hin as [|x y log Hin IH].
  - cbn in H. rewrite E in H. discriminate.
  - cbn in H. destruct (is_pending_demo y); [discriminate | auto].
Qed.

(** X16. One [real_heal] closes exactly one pending demo failure: with
    [n > 0] pending records in the log, [n - 1] are pending afterwards
    and the log is no longer; with none pending, none is afterwards and
    the log is one record longer. Failures that queued up need one heal
    request each. *)
Theorem real_heal_closes_one o1 o2 w wf rest :
  heap_ok w ->
  workflows (state w) = wf :: rest ->
  let w' := (real_heal o1 o2 w).2 in
  ((0 < pending_count (incident_log w))%nat ->
   S (pending_count (incident_log w')) = pending_count (incident_log w) /\
   length (incident_log w') = length (incident_log w)) /\
  (pending_count (incident_log w) = 0%nat ->
   pending_count (incident_log w') = 0%nat /\
   length (incident_log w') = S (length (incident_log w))).
Proof.
  intros Hok Hwf w'. split.
  - intros Hpos. destruct (pending_count_pos _ Hpos) as (p & Hin & Hp).
    destruct (find_pending_exists _ _ Hok Hin Hp) as [l Hf].
    pose proof (heap_ok_live _ Hok) as Hlive. destruct Hok as [Hnd _].
    destruct (find_pending_view _ _ _ Hnd Hlive Hf)
      as (i & inc & Hi & Hv & Hpi & _ & Hupd).
    assert (Hlog : incident_log w' = <[i := recover inc]> (incident_log w)).
    { unfold w'. rewrite (real_heal_found_eq _ _ _ _ _ _ Hwf Hf).
      unfold incident_log. cbn [snd state heap incidents]. exact Hupd. }
    rewrite Hlog. split.
    + apply (pending_count_insert _ _ inc); [exact Hv | exact Hpi |].
      unfold is_pending_demo, recover. cbn. apply andb_false_r.
    + apply length_insert.
  - intros Hzero. pose proof (pending_count_zero _ Hzero) as Hnone.
    assert (Hf : find_pending (heap w) (incidents (state w)) = None).
    { apply find_pending_None; [now apply heap_ok_live | exact Hnone]. }
    assert (Hlog : exists ts, incident_log w' = manual_restart ts :: incident_log w).
    { unfold w'. rewrite (real_heal_fallback_eq _ _ _ _ _ Hwf Hf).
      cbn zeta. cbn [snd]. eexists. now apply incident_log_cons. }
    destruct Hlog as [ts ->]. split; [|reflexivity].
    unfold pending_count in *. cbn. exact Hzero.
Qed.

Lemma real_heal_closes_one_witness :
  let w := run [RealFail; RealFail] Samples.boot in
  pending_count (incident_log w) = 2%nat /\
  pending_count (incident_log (real_heal 0 0 w).2) = 1%nat.
Proof.
  intros w.
  assert (H2 : pending_count (incident_log w) = 2%nat) by (vm_compute; reflexivity).
  split; [exact H2|].
  destruct (real_heal_closes_one 0 0 w
              (mkWorkflow "Incident Agent" "Running" "2m ago" "in 3m")
              (tail (workflows initial_state))) as [H _].
  - apply run_heap_ok, heap_ok_initial.
  - reflexivity.
  - destruct H as [H _]; [rewrite H2; lia|]. rewrite H2 in H. lia.
Defined.


End OpsMore.

(** ** More on backups and evidence packs *)

Module ArtifactMore.
Import Clock Ops Backup Evidence Process Views.
Import CatalogFacts OpsFacts ArtifactFacts ProcessFacts.

#[local] Arguments str : simpl never.
#[local] Arguments path_join : simpl never.
#[local] Arguments now_iso : simpl never.
#[local] Arguments isoformat : simpl never.
#[local] Arguments int_time : simpl never.
#[local] Arguments backup_name : simpl never.
#[local] Arguments pack_name : simpl never.
#[local] Arguments zip_path_of : simpl never.
#[local] Arguments summary_md : simpl never.
#[local] Arguments backup_text : simpl never.

Lemma run_backup_ok sz w r w' :
  run_backup sz w = (Ok r, w') ->
  r = JDict {[ "ok" := JBool true; "file" := JStr (backup_name w);
               "size_bytes" := JInt (Z.of_N sz); "ts" := JStr (now_iso w) ]} /\
  exists members,
    w' = mkWorld
           (set_last_backup
              (mkLastBackup (Some (now_iso w)) (Some (backup_name w)) sz)
              (state w))
           (heap w) (catalog_cache w)
           (<[path_join BACKUP_DIR (backup_name w) := File sz (BTarGz members)]>
              (fs w))
           (clock w) (utc_offset w).
Proof.
  unfold run_backup, open_for_write, close_archive, getsize. unfold_m. cbn.
  destruct (fs w !! BACKUP_DIR) as [[d|s b]|]; [|discriminate..].
  destruct (fs w !! path_join BACKUP_DIR (backup_name w)) as [[d'|s b]|] eqn:E;
    [discriminate|..].
  all: rewrite lookup_insert_eq; cbn; rewrite insert_insert_eq;
    intros [= <- <-]; split; [reflexivity|eexists; reflexivity].
Qed.

Lemma run_last_backup evs w :
  Forall (fun ev => is_run_backup ev = false) evs ->
  last_backup (state (run evs w)) = last_backup (state w).
Proof.
  intros H. revert w. induction H as [|ev evs Hev _ IH]; intros w;
    [reflexivity|].
  cbn [run]. rewrite IH. pose proof (step_last_backup ev w) as Hs.
  destruct ev; try exact Hs. discriminate.
Qed.

(** X18. [get_backup_status] keeps reporting what the last [run_backup]
    returned: the same file name, size and time stamp string, whatever
    requests are served, however the clock moves and whatever happens to
    the files in between, until [run_backup] is requested again. It
    changes nothing. *)
Theorem backup_status_reports_last_backup sz w r w' evs ts_epoch :
  run_backup sz w = (Ok r, w') ->
  Forall (fun ev => is_run_backup ev = false) evs ->
  exists v,
    get_backup_status ts_epoch (run evs w') = (Ok v, run evs w') /\
    getitem r "file" = Ok (JStr (backup_name w)) /\
    getitem v "last_file" = Ok (JStr (backup_name w)) /\
    getitem r "size_bytes" = Ok (JInt (Z.of_N sz)) /\
    getitem v "size_bytes" = Ok (JInt (Z.of_N sz)) /\
    getitem r "ts" = Ok (JStr (now_iso w)) /\
    getitem v "last_ok_ts" = Ok (JStr (now_iso w)).
Proof.
  intros Hr Hevs. destruct (run_backup_ok _ _ _ _ Hr) as (-> & members & ->).
  match goal with |- context [run evs ?w0] =>
    pose proof (run_last_backup evs w0 Hevs) as Hlb end.
  cbn [state set_last_backup last_backup] in Hlb.
  unfold get_backup_status. unfold_m. rewrite Hlb.
  eexists. split; [reflexivity|]. repeat split.
Qed.

Lemma backup_status_reports_last_backup_witness :
  exists v,
    (get_backup_status (float_of_Z 0)
       (run [RunBackup 120; Tick 90500000; Files ∅; VerifyBackup]
          Samples.boot)).1 = Ok v /\
    getitem v "last_file" = Ok (JStr "backup_0.tar.gz") /\
    getitem v "size_bytes" = Ok (JInt 120).
Proof.
  destruct (backup_status_reports_last_backup 120 Samples.boot
              (answer (run_backup 120 Samples.boot).1)
              (after (run_backup 120) Samples.boot)
              [Tick 90500000; Files ∅; VerifyBackup] (float_of_Z 0))
    as (v & Hv & _ & Hf & _ & Hs & _).
  - vm_compute. reflexivity.
  - repeat constructor.
  - exists v. split; [exact (f_equal fst Hv)|]. split.
    + rewrite Hf. vm_compute. reflexivity.
    + exact Hs.
Defined.

(** X19. Right after a successful [run_backup], [verify_backup]
    succeeds exactly when the archive written is not empty, and from
    then on its verdict depends on that one file only: whatever else
    changes on disk, older archives included, it answers the same. *)
Theorem verify_backup_after_run_backup sz w r w' :
  run_backup sz w = (Ok r, w') ->
  (verify_backup w').1 =
    (if (0 <? sz)%N then Ok (JDict {[ "ok" := JBool true ]})
     else Raise (HTTPException 500 "Backup file missing or empty")) /\
  (forall files,
     files !! path_join BACKUP_DIR (backup_name w) =
       fs w' !! path_join BACKUP_DIR (backup_name w) ->
     (verify_backup (set_fs files w')).1 = (verify_backup w').1).
Proof.
  intros Hr. destruct (run_backup_ok _ _ _ _ Hr) as (_ & members & ->).
  assert (Hne : String.eqb (backup_name w) "" = false) by reflexivity.
  split.
  - rewrite verify_backup_eq.
    cbn [fst state set_fs set_last_backup last_backup lb_file fs].
    rewrite Hne, lookup_insert_eq. reflexivity.
  - intros files Hfiles. rewrite !verify_backup_eq.
    cbn [fst state set_fs set_last_backup last_backup lb_file fs] in *.
    now rewrite Hne, Hfiles.
Qed.

Lemma verify_backup_after_run_backup_witness :
  (verify_backup (after (run_backup 0) Samples.boot)).1 =
    Raise (HTTPException 500 "Backup file missing or empty") /\
  (verify_backup (after (run_backup 64) Samples.boot)).1 =
    Ok (JDict {[ "ok" := JBool true ]}).
Proof.
  destruct (verify_backup_after_run_backup 0 Samples.boot
              (answer (run_backup 0 Samples.boot).1)
              (after (run_backup 0) Samples.boot)) as [H0 _];
    [vm_compute; reflexivity|].
  destruct (verify_backup_after_run_backup 64 Samples.boot
              (answer (run_backup 64 Samples.boot).1)
              (after (run_backup 64) Samples.boot)) as [H1 _];
    [vm_compute; reflexivity|].
  split; [exact H0 | exact H1].
Defined.

Lemma backup_entry_short w :
  (length (backup_entry w) <= 1)%nat /\
  (lb_file (last_backup (state w)) = None -> backup_entry w = []).
Proof.
  unfold backup_entry. split.
  - destruct (file_truthy _); [|cbn; lia].
    destruct (exists_path _ w); cbn; lia.
  - now intros ->.
Qed.

(** What a call does, by the state of the evidence directory. *)
Lemma build_evidence_pack_by_dir e w :
  let zip := zip_path_of (pack_name w) in
  match fs w !! EVIDENCE_DIR, fs w !! zip with
  | Some (Dir _), Some (Dir _) | Some (File _ _), _ | None, _ =>
      exists detail, build_evidence_pack e w = (Raise (HTTPException 500 detail), w)
  | Some (Dir _), _ =>
      exists data summary extra,
        build_evidence_pack e w =
          (Ok (JDict {[ "ok" := JBool true; "pack_id" := JStr (pack_name w);
                        "zip_path" := JStr zip;
                        "size_bytes" := JInt (Z.of_N (zip_size e));
                        "created_at" := JStr (now_iso w) ]}),
           set_fs (<[zip := File (zip_size e)
                              (BZip (("evidence.json", EJson data)
                                       :: ("summary.md", EText summary)
                                       :: extra))]> (fs w)) w) /\
        (length extra <= 1)%nat /\
        (lb_file (last_backup (state w)) = None -> extra = [])
  end.
Proof.
  destruct (get_system_status_pure e w) as [v1 H1].
  destruct (get_orchestrator_status_pure e w) as [v2 H2].
  destruct (get_backup_status_pure (backup_epoch e) w) as [v3 H3].
  destruct (get_incidents_pure w) as [v4 H4].
  destruct (get_health_pure w) as [v5 H5].
  cbn zeta.
  unfold build_evidence_pack, except_as_500, open_for_write, close_archive,
    getsize.
  unfold_m. cbn -[get_system_status get_orchestrator_status
                  get_backup_status get_incidents get_health backup_entry].
  rewrite H1, H2, H3, H4, H5.
  destruct (fs w !! EVIDENCE_DIR) as [[d|s b]|]; [|eauto..].
  destruct (fs w !! zip_path_of (pack_name w)) as [[d'|s b]|] eqn:E; [eauto|..].
  all: cbn -[backup_entry]; rewrite lookup_insert_eq; cbn -[backup_entry];
    rewrite insert_insert_eq; eexists _, _, _; split; [reflexivity|];
    apply (backup_entry_short
             (set_fs (<[zip_path_of (pack_name w) := File 0 BOpaque]> (fs w)) w)).
Qed.

(** X20. What [build_evidence_pack] announces can be downloaded: the
    pack id of its answer names an archive of the announced size whose
    first two members are evidence.json and summary.md, followed by at
    most one copy of a backup and by none when no backup is on record. *)
Theorem evidence_pack_round_trip e w r w' :
  build_evidence_pack e w = (Ok r, w') ->
  exists id data summary extra,
    getitem r "pack_id" = Ok (JStr id) /\
    getitem r "size_bytes" = Ok (JInt (Z.of_N (zip_size e))) /\
    download_evidence id w' =
      (Ok (File (zip_size e)
             (BZip (("evidence.json", EJson data)
                      :: ("summary.md", EText summary) :: extra))), w') /\
    (length extra <= 1)%nat /\
    (lb_file (last_backup (state w)) = None -> extra = []).
Proof.
  intros H. pose proof (build_evidence_pack_by_dir e w) as Hc. cbn zeta in Hc.
  destruct (fs w !! EVIDENCE_DIR) as [[d|s b]|];
    [|destruct Hc as [detail Hc]; rewrite Hc in H; discriminate..].
  destruct (fs w !! zip_path_of (pack_name w)) as [[d'|s b]|];
    [destruct Hc as [detail Hc]; rewrite Hc in H; discriminate|..].
  all: destruct Hc as (data & summary & extra & Hc & Hlen & Hnone);
    rewrite Hc in H; injection H as <- <-;
    exists (pack_name w), data, summary, extra;
    repeat split; try assumption;
    unfold download_evidence; cbn [fs set_fs];
    now rewrite lookup_insert_eq.
Qed.

Lemma evidence_pack_round_trip_witness :
  exists data summary,
    (download_evidence "evidence_0"
       (after (build_evidence_pack Samples.env1) Samples.boot)).1 =
      Ok (File 900 (BZip [("evidence.json", EJson data);
                          ("summary.md", EText summary)])).
Proof.
  destruct (evidence_pack_round_trip Samples.env1 Samples.boot
              (answer (build_evidence_pack Samples.env1 Samples.boot).1)
              (after (build_evidence_pack Samples.env1) Samples.boot))
    as (id & data & summary & extra & Hid & _ & Hd & _ & Hnone).
  - vm_compute. reflexivity.
  - exists data, summary. rewrite (Hnone eq_refl) in Hd.
    vm_compute in Hid. injection Hid as <-. exact (f_equal fst Hd).
Defined.

(** X21. [build_evidence_pack] succeeds exactly when the evidence
    directory exists as a directory and the pack's path is not one.
    Otherwise it raises 500 carrying the operating system's message and
    leaves the world as it was; it raises nothing else. *)
Theorem build_evidence_pack_fails_closed e w :
  (is_ok (build_evidence_pack e w).1 = true <->
   (exists d, fs w !! EVIDENCE_DIR = Some (Dir d)) /\
   (forall d, fs w !! zip_path_of (pack_name w) <> Some (Dir d))) /\
  (is_ok (build_evidence_pack e w).1 = false ->
   exists detail,
     build_evidence_pack e w = (Raise (HTTPException 500 detail), w)).
Proof.
  pose proof (build_evidence_pack_by_dir e w) as Hc. cbn zeta in Hc.
  destruct (fs w !! EVIDENCE_DIR) as [[d|s b]|].
  - destruct (fs w !! zip_path_of (pack_name w)) as [[d'|s b]|].
    + destruct Hc as [detail Hc]. rewrite Hc. cbn. split; [|eauto].
      split; [discriminate|]. intros [_ H]. now destruct (H d').
    + destruct Hc as (data & summary & extra & Hc & _). rewrite Hc. cbn.
      split; [|discriminate]. split; [|reflexivity].
      intros _. split; [eauto|discriminate].
    + destruct Hc as (data & summary & extra & Hc & _). rewrite Hc. cbn.
      split; [|discriminate]. split; [|reflexivity].
      intros _. split; [eauto|discriminate].
  - destruct Hc as [detail Hc]. rewrite Hc. cbn. split; [|eauto].
    split; [discriminate|]. intros [[d H] _]. discriminate.
  - destruct Hc as [detail Hc]. rewrite Hc. cbn. split; [|eauto].
    split; [discriminate|]. intros [[d H] _]. discriminate.
Qed.

Lemma build_evidence_pack_fails_closed_witness :
  build_evidence_pack Samples.env1 (initial_world ∅ 0 0) =
    (Raise (HTTPException 500
       "[Errno 2] No such file or directory: 'runtime/evidence/evidence_0.zip'"),
     initial_world ∅ 0 0).
Proof.
  destruct (proj2 (build_evidence_pack_fails_closed Samples.env1
                     (initial_world ∅ 0 0))) as [detail H].
  - vm_compute. reflexivity.
  - rewrite H. f_equal. vm_compute in H. congruence.
Defined.

Lemma step_fs ev w :
  is_files ev = false ->
  fs (step ev w) = fs w \/
  exists p sz content,
    written_path ev w = Some p /\
    fs (step ev w) = <[p := File sz content]> (fs w).
Proof.
  destruct ev as [| o1 o2 | | o1 o2 | sz | | ts_epoch | e | scope id | dt | files];
    try discriminate; intros _; unfold step, after.
  - left. unfold simulate_fail. unfold_m. cbn.
    now destruct (workflows (state w)).
  - left. unfold self_heal. unfold_m. cbn. now destruct (workflows (state w)).
  - left. reflexivity.
  - left. unfold real_heal. unfold_m. cbn.
    destruct (find_pending (heap w) (incidents (state w))); cbn;
      now destruct (workflows (state w)).
  - destruct (run_backup_cases sz w) as [(r & m & ->)|[e ->]];
      [right; eexists _, _, _; split; reflexivity | now left].
  - left. now rewrite verify_backup_eq.
  - left. now destruct (get_backup_status_pure ts_epoch w) as [v ->].
  - destruct (build_evidence_pack_cases e w) as [(r & en & -> & _)|[d ->]];
      [right; eexists _, _, _; split; reflexivity | now left].
  - left. destruct (load_catalog_total w) as (data & w' & Hl).
    unfold Catalog.get_scope_kpis, lift. unfold_m. rewrite Hl.
    assert (fs w' = fs w) as <-.
    { destruct (load_catalog_world _ _ _ Hl) as [->|[_ ->]]; reflexivity. }
    destruct (negb (truthy data)); reflexivity.
  - now left.
Qed.

(** X22. None of the handlers run by [step] (the two fail and the two
    heal handlers, [run_backup], [verify_backup], [get_backup_status],
    [build_evidence_pack] and [get_scope_kpis]) deletes a file: a path
    that exists before the request exists after it. Only [run_backup]
    and [build_evidence_pack] write, and each at most the one archive it
    names after the clock; every other path is as it was, and under the
    other handlers all of them are. *)
Theorem step_never_deletes_files ev w :
  is_files ev = false ->
  (forall p, is_Some (fs w !! p) -> is_Some (fs (step ev w) !! p)) /\
  (forall q, written_path ev w <> Some q -> fs (step ev w) !! q = fs w !! q).
Proof.
  intros Hev. destruct (step_fs ev w Hev) as [->|(p & sz & c & Hp & ->)].
  - split; [auto|reflexivity].
  - split.
    + intros q Hq. destruct (decide (p = q)) as [->|Hne].
      * rewrite lookup_insert_eq. eauto.
      * now rewrite lookup_insert_ne.
    + intros q Hne. rewrite lookup_insert_ne; [reflexivity|].
      intros ->. now apply Hne.
Qed.

Lemma step_never_deletes_files_witness :
  is_Some (fs (step (RunBackup 10) Samples.boot) !! BACKUP_DIR) /\
  fs (step (RunBackup 10) Samples.boot) !! EVIDENCE_DIR =
    fs Samples.boot !! EVIDENCE_DIR.
Proof.
  destruct (step_never_deletes_files (RunBackup 10) Samples.boot eq_refl)
    as [H1 H2].
  split.
  - apply H1. vm_compute. eauto.
  - apply H2. vm_compute. discriminate.
Defined.

End ArtifactMore.

(** ** The role-based recommendation *)

Module BrainFacts.
Import Clock Brain.

#[local] Arguments int_time : simpl never.

Lemma recommend_known role_lower : recommend role_lower ∈ known_answers.
Proof.
  unfold recommend, known_answers.
  destruct (String.eqb role_lower "dean"); [apply list_elem_of_here|].
  destruct (String.eqb role_lower "facility");
    [apply list_elem_of_further, list_elem_of_here|].
  destruct (String.eqb role_lower "sustainability").
  - do 2 apply list_elem_of_further. apply list_elem_of_here.
  - do 3 apply list_elem_of_further. apply list_elem_of_here.
Qed.

Lemma lower_ascii_idempotent c : lower_ascii (lower_ascii c) = lower_ascii c.
Proof. destruct c as [[] [] [] [] [] [] [] []]; reflexivity. Qed.

Lemma lower_idempotent s : lower (lower s) = lower s.
Proof.
  induction s as [|c s IH]; [reflexivity|].
  cbn [lower]. now rewrite lower_ascii_idempotent, IH.
Qed.

Lemma brain_decide_string context role w :
  default (JStr "Admin") (context !! "role") = JStr role ->
  brain_decide context w =
    (Ok (JDict {[ "intent" := JStr (recommend (lower role)).1.1;
                  "recommended_tabs" := tabs (recommend (lower role)).1.2;
                  "message" := JStr (recommend (lower role)).2;
                  "ts" := JInt (int_time w);
                  "confidence" := JFloat (95 # 100);
                  "reason" := JStr ("Role '" ++ role ++
                                    "' maps to strategic pillars.") ]}), w).
Proof.
  intros H. unfold brain_decide. rewrite H.
  destruct (recommend (lower role)) as [[intent tbs] message]. reflexivity.
Qed.

(** X23. [brain_decide] answers every request whose role is a string, or
    that has no role at all (read as "Admin"): the intent, tabs and
    message are one of four fixed triples, so the single-tab default and
    the welcome message set at the top of the handler are never
    returned. A role that is not a string raises AttributeError. Nothing
    is written either way. *)
Theorem brain_decide_answers context w :
  (forall role,
     default (JStr "Admin") (context !! "role") = JStr role ->
     exists r intent tbs message,
       brain_decide context w = (Ok r, w) /\
       (intent, tbs, message) ∈ known_answers /\
       getitem r "intent" = Ok (JStr intent) /\
       getitem r "recommended_tabs" = Ok (tabs tbs) /\
       getitem r "message" = Ok (JStr message)) /\
  (forall v, context !! "role" = Some v -> (forall s, v <> JStr s) ->
     brain_decide context w = (Raise AttributeError, w)).
Proof.
  split.
  - intros role H. rewrite (brain_decide_string _ _ _ H).
    pose proof (recommend_known (lower role)) as Hk.
    destruct (recommend (lower role)) as [[intent tbs] message].
    eexists _, intent, tbs, message. split; [reflexivity|].
    split; [exact Hk|]. repeat split.
  - intros v Hv Hs. unfold brain_decide. rewrite Hv. cbn [default].
    destruct v; try reflexivity. now destruct (Hs s).
Qed.

Lemma brain_decide_answers_witness :
  (exists r, (brain_decide ∅ Samples.boot).1 = Ok r /\
             getitem r "intent" = Ok (JStr "General Overview")) /\
  (brain_decide {[ "role" := JInt 3 ]} Samples.boot).1 = Raise AttributeError.
Proof.
  destruct (brain_decide_answers ∅ Samples.boot) as [H1 _].
  destruct (brain_decide_answers {[ "role" := JInt 3 ]} Samples.boot) as [_ H2].
  split.
  - destruct (H1 "Admin" eq_refl) as (r & i & t & m & Hr & _).
    exists r. split; [exact (f_equal fst Hr)|].
    vm_compute in Hr. injection Hr as <-. vm_compute. reflexivity.
  - rewrite (H2 (JInt 3)); [reflexivity | reflexivity | discriminate].
Defined.

(** X24. The recommendation ignores the case of the role: two roles that
    differ only in the case of their letters get the same intent, tabs
    and message, and a role spelled in any mix of cases is answered like
    its lower-case spelling. *)
Theorem brain_decide_ignores_case c1 c2 role1 role2 w :
  default (JStr "Admin") (c1 !! "role") = JStr role1 ->
  default (JStr "Admin") (c2 !! "role") = JStr role2 ->
  lower role1 = lower role2 ->
  exists r1 r2,
    brain_decide c1 w = (Ok r1, w) /\ brain_decide c2 w = (Ok r2, w) /\
    getitem r1 "intent" = getitem r2 "intent" /\
    getitem r1 "recommended_tabs" = getitem r2 "recommended_tabs" /\
    getitem r1 "message" = getitem r2 "message" /\
    lower (lower role1) = lower role1.
Proof.
  intros H1 H2 Hl.
  rewrite (brain_decide_string _ _ _ H1), (brain_decide_string _ _ _ H2), Hl.
  eexists _, _. split; [reflexivity|]. split; [reflexivity|].
  repeat split. rewrite <- Hl. apply lower_idempotent.
Qed.

Lemma brain_decide_ignores_case_witness :
  exists r1 r2,
    (brain_decide {[ "role" := JStr "DeAn" ]} Samples.boot).1 = Ok r1 /\
    (brain_decide {[ "role" := JStr "dean" ]} Samples.boot).1 = Ok r2 /\
    getitem r1 "intent" = getitem r2 "intent" /\
    getitem r2 "intent" = Ok (JStr "Strategic Overview").
Proof.
  destruct (brain_decide_ignores_case {[ "role" := JStr "DeAn" ]}
              {[ "role" := JStr "dean" ]} "DeAn" "dean" Samples.boot)
    as (r1 & r2 & H1 & H2 & Hi & _);
    [vm_compute; reflexivity..|].
  exists r1, r2. split; [exact (f_equal fst H1)|].
  split; [exact (f_equal fst H2)|]. split; [exact Hi|].
  vm_compute in H2. injection H2 as <-. vm_compute. reflexivity.
Defined.

End BrainFacts.
